(** * rinexmod: the batch orchestrator of [rinexmod.py]

    A shallow embedding of the function [rinexmod] (configuration
    validation, nine-character index, per-file pipeline) and of the string
    and date operations of the Python standard library it relies on.

    Conventions of the embedding.
    - Python [str] is [string]; only the ASCII range is case-mapped, bytes
      above 127 are left alone by [str_lower] and [str_upper].
    - An argument that is either a string or the falsy default [0] is an
      [option string]; [truthy] is Python's truth test on it.
    - The classes [RinexFile] and [SiteLog] and the [os.path] functions are
      collaborators that live outside [rinexmod.py]: they are the fields
      of the interfaces [OS], [RinexAPI] and [SiteLogAPI].
    - Everything the function does to the outside world (prints, log
      records, directory creation, loads, writes) is appended to a trace of
      events, in program order.
    - An exception that the body of [rinexmod] raises by itself (an unbound
      name, a wrong operand type) ends the run with [Raised]. The
      collaborators are total: what they may raise is outside the model,
      except a failing [open], which [readlines] reports with [None]. *)

From Stdlib Require Import Ascii DecimalString.
From stdpp Require Import gmap strings list.

(** ** Python strings *)

Module Py.

Definition nl : string := String (ascii_of_nat 10) "".

Definition is_upper (c : ascii) : bool :=
  (65 <=? nat_of_ascii c) && (nat_of_ascii c <=? 90).

Definition is_lower (c : ascii) : bool :=
  (97 <=? nat_of_ascii c) && (nat_of_ascii c <=? 122).

Definition lower_char (c : ascii) : ascii :=
  if is_upper c then ascii_of_nat (nat_of_ascii c + 32) else c.

Definition upper_char (c : ascii) : ascii :=
  if is_lower c then ascii_of_nat (nat_of_ascii c - 32) else c.

Fixpoint str_map (f : ascii -> ascii) (s : string) : string :=
  match s with
  | EmptyString => EmptyString
  | String c r => String (f c) (str_map f r)
  end.

(** [s.lower()] and [s.upper()] *)
Definition str_lower : string -> string := str_map lower_char.
Definition str_upper : string -> string := str_map upper_char.

(** [s[:n]] and [s[n:]] for a literal [n >= 0] *)
Fixpoint take (n : nat) (s : string) : string :=
  match n, s with
  | S k, String c r => String c (take k r)
  | _, _ => EmptyString
  end.

Fixpoint drop (n : nat) (s : string) : string :=
  match n, s with
  | S k, String _ r => drop k r
  | _, _ => s
  end.

(** [str.isspace] on one character of the ASCII range: tab, line feed,
    vertical tab, form feed, carriage return, the four separators
    28..31 and the space. *)
Definition isspace (c : ascii) : bool :=
  let n := nat_of_ascii c in
  ((9 <=? n) && (n <=? 13)) || ((28 <=? n) && (n <=? 32)).

Fixpoint lstrip (s : string) : string :=
  match s with
  | String c r => if isspace c then lstrip r else s
  | EmptyString => EmptyString
  end.

(** [s.strip()]: the reverse of the left-stripped reverse is the
    right-stripped string. *)
Definition rstrip (s : string) : string :=
  String.rev (lstrip (String.rev s)).

Definition strip (s : string) : string := rstrip (lstrip s).

(** [sub in s] *)
Fixpoint prefix_of (p s : string) : bool :=
  match p, s with
  | EmptyString, _ => true
  | String a p', String b s' => if decide (a = b) then prefix_of p' s' else false
  | String _ _, EmptyString => false
  end.

Fixpoint contains (sub s : string) : bool :=
  prefix_of sub s ||
  match s with
  | EmptyString => false
  | String _ r => contains sub r
  end.

(** [sep.join(parts)] *)
Fixpoint join (sep : string) (parts : list string) : string :=
  match parts with
  | [] => ""
  | [p] => p
  | p :: rest => p +:+ sep +:+ join sep rest
  end.

Fixpoint replicate_char (n : nat) (c : ascii) : string :=
  match n with
  | O => ""
  | S k => String c (replicate_char k c)
  end.

(** ['{:60s}'.format(s)]: left-justified in a field of [w] characters *)
Definition ljust (w : nat) (s : string) : string :=
  s +:+ replicate_char (w - String.length s) " ".

(** Zero-padded decimal of a natural number, as [%02d] does. *)
Definition dec (n : nat) : string := NilEmpty.string_of_uint (Nat.to_uint n).

Definition zpad (w n : nat) : string :=
  replicate_char (w - String.length (dec n)) "0" +:+ dec n.

(** Truth value of an argument that is a string or the default [0]. *)
Definition truthy (o : option string) : bool :=
  match o with
  | Some s => negb (bool_decide (s = ""))
  | None => false
  end.

End Py.

(** ** [datetime] and [strftime] *)

Record datetime := mk_datetime {
  year : nat; month : nat; day : nat;
  hour : nat; minute : nat; second : nat
}.

Module Date.

Definition is_leap (y : nat) : bool :=
  ((y mod 4 =? 0) && negb (y mod 100 =? 0)) || (y mod 400 =? 0).

Definition days_in_month (y m : nat) : nat :=
  match m with
  | 2 => if is_leap y then 29 else 28
  | 4 | 6 | 9 | 11 => 30
  | _ => 31
  end.

(** Days of the year that precede month [m]: the sum over the months
    [1 .. m-1]. *)
Fixpoint days_before (y m : nat) : nat :=
  match m with
  | O => 0
  | S k => match k with
           | O => 0
           | _ => days_before y k + days_in_month y k
           end
  end.

(** [%j]: the day of the year, from 1. *)
Definition yday (d : datetime) : nat := days_before (year d) (month d) + day d.

(** One conversion directive of [strftime], with the widths of the C
    library for a year of four digits; an unknown directive is emitted
    unchanged. *)
Definition directive (c : ascii) (d : datetime) : string :=
  if decide (c = "Y"%char) then Py.zpad 4 (year d)
  else if decide (c = "j"%char) then Py.zpad 3 (yday d)
  else if decide (c = "m"%char) then Py.zpad 2 (month d)
  else if decide (c = "d"%char) then Py.zpad 2 (day d)
  else if decide (c = "H"%char) then Py.zpad 2 (hour d)
  else if decide (c = "M"%char) then Py.zpad 2 (minute d)
  else if decide (c = "S"%char) then Py.zpad 2 (second d)
  else String "%"%char (String c "").

Fixpoint strftime (fmt : string) (d : datetime) : string :=
  match fmt with
  | EmptyString => EmptyString
  | String c rest =>
      if decide (c = "%"%char) then
        match rest with
        | String k rest' => directive k d +:+ strftime rest' d
        | EmptyString => String c EmptyString
        end
      else String c (strftime rest d)
  end.

End Date.

(** ** The collaborators' data *)

(** A keyword dictionary ([modification_kw], or a [**kwargs] dictionary
    handed over by the station log), in insertion order. *)
Definition kwargs := list (string * string).

(** [d.get(k)] *)
Fixpoint kw_get (k : string) (d : kwargs) : option string :=
  match d with
  | [] => None
  | (k', v) :: r => if decide (k' = k) then Some v else kw_get k r
  end.

(** A method call received by a [RinexFile] object: the header setters and
    [add_comment] belong to [rinexfile.py], so the model records the call
    and its arguments. *)
Inductive call :=
| Positional (method : string) (args : list (option string))
| Keyword (method : string) (args : kwargs).

Module RinexFile.

Record t := mk {
  status : nat;
  filename : string;
  file_period : string;
  start_date : datetime;
  end_date : datetime;
  sample_rate : string;
  observable_type : string;
  compression : option string;
  (** what [get_station()] returns: the station of the header *)
  station : string;
  (** the setter and comment calls received so far *)
  calls : list call
}.

(** [obj.filename = s] *)
Definition set_filename (s : string) (o : t) : t :=
  mk (status o) s (file_period o) (start_date o) (end_date o)
     (sample_rate o) (observable_type o) (compression o) (station o)
     (calls o).

Definition invoke (c : call) (o : t) : t :=
  mk (status o) (filename o) (file_period o) (start_date o) (end_date o)
     (sample_rate o) (observable_type o) (compression o) (station o)
     (calls o ++ [c]).

Definition add_comment (s : string) : t -> t :=
  invoke (Positional "add_comment" [Some s]).

End RinexFile.

Module SiteLog.

Record t := mk {
  status : nat;
  filename : string;
  (** [info['1.']['Four Character ID']] *)
  four_character_id : string
}.

End SiteLog.

(** The seven components of a non-empty answer of
    [SiteLog.rinex_metadata_lines]. *)
Record metadata_vars := mk_metadata {
  fourchar_id : string;
  mv_observable_type : string;
  agencies : kwargs;
  receiver : kwargs;
  antenna : kwargs;
  antenna_pos : kwargs;
  antenna_delta : kwargs
}.

(** ** Arguments of [rinexmod] *)

Inductive rinexlist_arg :=
| ListFile (path : string)          (* a string: the list file, or the lone file *)
| FileList (files : list string).   (* an actual Python list of paths *)

Module Config.

Record t := mk {
  rinexlist : rinexlist_arg;
  outputfolder : string;
  marker : option string;
  name : bool;
  lone : bool;
  sitelog : option string;
  force : bool;
  reconstruct : option string;
  ignore : bool;
  ninecharfile : option string;
  modification_kw : option kwargs;
  verbose : bool;
  compression : option string
}.

End Config.

(** Truth value of [modification_kw]: a non-empty dictionary. *)
Definition kw_truthy (o : option kwargs) : bool :=
  match o with
  | Some (_ :: _) => true
  | _ => false
  end.

(** ** Observable behaviour *)

Inductive level := INFO | WARNING | ERROR.

Inductive event :=
| Print (msg : string)
| OpenLog (logfile : string)                 (* loggersVerbose(logfile) *)
| Log (lvl : level) (msg : string)
| Mkdir (path : string)
| Makedirs (path : string)
| ParseSiteLog (path : string)               (* SiteLog(sitelog) *)
| Load (file : string)                       (* RinexFile(file) *)
| Write (obj : RinexFile.t) (folder : string) (compression : option string)
| ClearHandlers.

Inductive exn :=
| NameError (name : string)
| UnboundLocalError (name : string)
| TypeError
| OSError.

(** The two sinks of [loggersVerbose]: the prompt takes [INFO] and above,
    the log file [WARNING] and above. *)
Definition to_logfile (e : event) : bool :=
  match e with
  | Log WARNING _ | Log ERROR _ => true
  | _ => false
  end.

Definition is_write (e : event) : bool :=
  match e with Write _ _ _ => true | _ => false end.

(** An event of the per-file loop: everything but the prints and the
    set-up of the output folder, of the logger and of the station log. *)
Definition is_file_event (e : event) : bool :=
  match e with
  | Log _ _ | Load _ | Write _ _ _ | Makedirs _ => true
  | _ => false
  end.

Definition acceptable_keywords : list string :=
  ["station"; "receiver_serial"; "receiver_type"; "receiver_fw";
   "antenna_serial"; "antenna_type";
   "antenna_X_pos"; "antenna_Y_pos"; "antenna_Z_pos";
   "antenna_X_delta"; "antenna_Y_delta"; "antenna_Z_delta";
   "operator"; "agency"; "observables"].

(** ** The nine-character index (lines 226-229) *)

Fixpoint nine_char_index (acc : gmap string string) (nine_char_list : list string)
  : gmap string string :=
  match nine_char_list with
  | [] => acc
  | site_key :: rest =>
      nine_char_index
        (<[Py.str_lower (Py.take 4 site_key) := Py.strip site_key]> acc) rest
  end.

(** ** The long name (lines 293-302) *)

Definition timeformat (file_period : string) : string :=
  if decide (file_period = "01D") then "%Y%j0000" else "%Y%j%H%M".

Definition long_name (site : string) (o : RinexFile.t) : string :=
  Py.join "_"
    [site;
     Date.strftime (timeformat (RinexFile.file_period o)) (RinexFile.start_date o);
     RinexFile.file_period o;
     RinexFile.sample_rate o;
     RinexFile.observable_type o +:+ "O.rnx"].

(** The long name in the words of the naming rule: a daily file has the
    year and the day of the year followed by four zeros, any other
    period class has the year, the day of the year, the hour and the
    minute; the name is the site, the time token, the period class, the
    sample rate and the observable type with [O.rnx], joined by
    underscores. *)
Definition time_token_spec (periodClass : string) (startTime : datetime) : string :=
  if decide (periodClass = "01D") then
    Py.zpad 4 (year startTime) +:+ Py.zpad 3 (Date.yday startTime) +:+ "0000"
  else
    Py.zpad 4 (year startTime) +:+ Py.zpad 3 (Date.yday startTime) +:+
    Py.zpad 2 (hour startTime) +:+ Py.zpad 2 (minute startTime).

Definition long_name_spec (siteId9 : string) (startTime : datetime)
  (periodClass sampleRate observableCode : string) : string :=
  siteId9 +:+ "_" +:+ time_token_spec periodClass startTime +:+ "_" +:+
  periodClass +:+ "_" +:+ sampleRate +:+ "_" +:+ observableCode +:+ "O.rnx".

(** The site of a file without an entry in the index (lines 284, 291) *)
Definition default_site (filename : string) : string :=
  Py.str_upper (Py.take 4 filename) +:+ "00XXX".

(** ** The marker (line 276) *)

Definition marker_filename (marker filename : string) : string :=
  Py.str_lower marker +:+ Py.drop 4 filename.

(** ** The collaborators' interfaces *)

(** [os], [os.path], [open] and [datetime.now]. The file system is a state
    [FS] that [mkdir] and [makedirs] transform. *)
Class OS := {
  FS : Type;
  now : datetime;
  abspath : string -> string;
  dirname : string -> string;
  path_join : string -> string -> string;
  relpath : string -> string -> string;
  isfile : FS -> string -> bool;
  isdir : FS -> string -> bool;
  mkdir : string -> FS -> FS;
  makedirs : string -> FS -> FS;
  (** [open(path).readlines()], [None] when it raises *)
  readlines : FS -> string -> option (list string)
}.

(** [rinexfile.RinexFile] *)
Class RinexAPI `{OS} := {
  RinexFile_init : FS -> string -> RinexFile.t;
  get_metadata : RinexFile.t -> string;
  (** the file system after the write, and the path of the written file *)
  write_to_path : RinexFile.t -> string -> option string -> FS -> FS * string
}.

(** [sitelogs_IGS.SiteLog] *)
Class SiteLogAPI `{OS} := {
  SiteLog_init : FS -> string -> SiteLog.t;
  (** an empty answer is [None]; the boolean is [ignored] *)
  rinex_metadata_lines :
    SiteLog.t -> datetime -> datetime -> bool -> option metadata_vars * bool
}.

Section Rinexmod.

Context `{os : OS} `{!RinexAPI} `{!SiteLogAPI}.

(** ** Control flow of the function body *)

(** The local variables that survive from one iteration of the loop to the
    next, the file system and the trace. *)
Record state := mk_state {
  fs : FS;
  trace : list event;
  (** the parameter [compression], rebound at line 379 *)
  compression : option string;
  (** [None] while the local name is unbound *)
  modification_source : option string
}.

Inductive flow (A : Type) :=
| Next (a : A) (s : state)       (* falls through to the next statement *)
| Continue (s : state)           (* [continue] *)
| Return (s : state)             (* [return] *)
| Raise (e : exn) (s : state).
Arguments Next {A}.
Arguments Continue {A}.
Arguments Return {A}.
Arguments Raise {A}.

Definition M (A : Type) := state -> flow A.

Definition ret {A} (a : A) : M A := fun s => Next a s.

Definition bind {A B} (m : M A) (k : A -> M B) : M B :=
  fun s =>
    match m s with
    | Next a s' => k a s'
    | Continue s' => Continue s'
    | Return s' => Return s'
    | Raise e s' => Raise e s'
    end.

Notation "x <- m ;; k" := (bind m (fun x => k))
  (at level 100, m at next level, right associativity).
Notation "m ;;; k" := (bind m (fun _ => k))
  (at level 100, right associativity).

(** The state after the events [evs] *)
Definition record (evs : list event) (s : state) : state :=
  mk_state (fs s) (trace s ++ evs) (compression s) (modification_source s).

Definition emit (e : event) : M unit := fun s => Next tt (record [e] s).

Definition print (msg : string) : M unit := emit (Print msg).
Definition log (lvl : level) (msg : string) : M unit := emit (Log lvl msg).

Definition continue_ {A} : M A := fun s => Continue s.
Definition return_ {A} : M A := fun s => Return s.
Definition raise {A} (e : exn) : M A := fun s => Raise e s.

Definition when (b : bool) (m : M unit) : M unit := if b then m else ret tt.

Definition get_fs : M FS := fun s => Next (fs s) s.

Definition update_fs (f : FS -> FS) : M unit :=
  fun s => Next tt (mk_state (f (fs s)) (trace s) (compression s)
                             (modification_source s)).

Definition get_compression : M (option string) := fun s => Next (compression s) s.

Definition set_compression (c : option string) : M unit :=
  fun s => Next tt (mk_state (fs s) (trace s) c (modification_source s)).

Definition set_modification_source (src : string) : M unit :=
  fun s => Next tt (mk_state (fs s) (trace s) (compression s) (Some src)).

(** Reading the local name [modification_source] *)
Definition get_modification_source : M string :=
  fun s =>
    match modification_source s with
    | Some src => Next src s
    | None => Raise (UnboundLocalError "modification_source") s
    end.

(** ** Validation of the arguments (lines 128-201) *)

(** Lines 198-201: the first key outside [acceptable_keywords] ends the
    run. *)
Fixpoint check_keywords (modification_kw : kwargs) : M unit :=
  match modification_kw with
  | [] => ret tt
  | (kw, _) :: rest =>
      if bool_decide (kw ∈ acceptable_keywords) then check_keywords rest
      else
        print ("# ERROR : '" +:+ kw +:+
               "' is not an acceptable keyword for header modification.") ;;;
        return_
  end.

(** Lines 170-176: [Some] station log exactly when [sitelog] is set. *)
Definition parse_sitelog (sitelog : option string) : M (option SiteLog.t) :=
  match sitelog with
  | Some path =>
      if Py.truthy sitelog then
        f <- get_fs ;;
        emit (ParseSiteLog path) ;;;
        let sitelogobj := SiteLog_init f path in
        if bool_decide (SiteLog.status sitelogobj = 0) then ret (Some sitelogobj)
        else print ("# ERROR : The sitelog is not parsable : " +:+ path) ;;; return_
      else ret None
  | None => ret None
  end.

(** What the loop iterates over: the paths, or, when [lone] wraps an
    argument that is already a list, one item that is itself a list. *)
Inductive file_items :=
| Paths (files : list string)
| Nested (files : list string).

(** Lines 206-215 *)
Definition read_rinexlist (lone : bool) (rinexlist : rinexlist_arg) : M file_items :=
  match rinexlist with
  | ListFile path =>
      if lone then ret (Paths [path])
      else
        f <- get_fs ;;
        match readlines f path with
        | Some lines => ret (Paths (map Py.strip lines))
        | None =>
            print ("# ERROR : The input file is not a list : " +:+ path) ;;; return_
        end
  | FileList files =>
      if lone then ret (Nested files) else ret (Paths files)
  end.

(** Lines 219-229: [Some] index exactly when [ninecharfile] is set. *)
Definition read_ninecharfile (ninecharfile : option string)
  : M (option (gmap string string)) :=
  match ninecharfile with
  | Some path =>
      if Py.truthy ninecharfile then
        f <- get_fs ;;
        if isfile f path then
          match readlines f path with
          | Some nine_char_list => ret (Some (nine_char_index ∅ nine_char_list))
          | None => raise OSError
          end
        else
          print ("# ERROR : The specified 9-chars. list file does not exists : "
                 +:+ path) ;;;
          return_
      else ret None
  | None => ret None
  end.

(** ** One iteration of the loop (lines 233-384) *)

Section File.

Variable cfg : Config.t.
(** [outputfolder] after line 153 *)
Variable outputfolder : string.
Variable sitelogobj : option SiteLog.t.
Variable nine_char_dict : option (gmap string string).

(** Lines 239-250 *)
Definition resolve_outputfolder (file : string) : M string :=
  match Config.reconstruct cfg with
  | Some reconstruct =>
      if Py.truthy (Config.reconstruct cfg) then
        if Py.contains reconstruct file then
          let relpath := relpath (dirname file) reconstruct in
          let myoutputfolder := path_join outputfolder relpath in
          f <- get_fs ;;
          when (negb (isdir f myoutputfolder))
               (emit (Makedirs myoutputfolder) ;;;
                update_fs (makedirs myoutputfolder)) ;;;
          ret myoutputfolder
        else
          log ERROR ("31 - The subfolder can not be reconstructed for file - "
                     +:+ file) ;;;
          continue_
      else ret outputfolder
  | None => ret outputfolder
  end.

(** Lines 253-269 *)
Definition load (file : string) : M RinexFile.t :=
  f <- get_fs ;;
  emit (Load file) ;;;
  let rinexfileobj := RinexFile_init f file in
  let status := RinexFile.status rinexfileobj in
  when (bool_decide (status = 1))
       (log ERROR (Py.ljust 60 "01 - The specified file does not exists"
                   +:+ " - " +:+ file) ;;;
        continue_) ;;;
  (* line 260 reads the name [err_msg], which nothing binds *)
  when (bool_decide (status = 2)) (raise (NameError "err_msg")) ;;;
  when (bool_decide (status = 3))
       (log ERROR (Py.ljust 60 "03 - Invalid or empty Zip file"
                   +:+ " - " +:+ file) ;;;
        continue_) ;;;
  when (bool_decide (status = 4))
       (log ERROR (Py.ljust 60 "04 - Invalid Compressed Rinex file"
                   +:+ " - " +:+ file) ;;;
        continue_) ;;;
  ret rinexfileobj.

Definition log_metadata (rinexfileobj : RinexFile.t) : M unit :=
  when (Config.verbose cfg)
       (log INFO ("File Metadata :" +:+ Py.nl +:+ get_metadata rinexfileobj)).

(** Lines 274-276 *)
Definition rename_marker (rinexfileobj : RinexFile.t) : RinexFile.t :=
  match Config.marker cfg with
  | Some marker =>
      if Py.truthy (Config.marker cfg) then
        RinexFile.set_filename
          (marker_filename marker (RinexFile.filename rinexfileobj)) rinexfileobj
      else rinexfileobj
  | None => rinexfileobj
  end.

Definition warn_country (file : string) : M unit :=
  log WARNING
      ("32 - Station's country not retrevied, will not be properly renamed - "
       +:+ file).

(** Lines 281-291 *)
Definition resolve_site (file : string) (rinexfileobj : RinexFile.t) : M string :=
  let filename := RinexFile.filename rinexfileobj in
  match nine_char_dict with
  | Some d =>
      match d !! Py.str_lower (Py.take 4 filename) with
      | None => warn_country file ;;; ret (default_site filename)
      | Some site => ret site
      end
  | None => warn_country file ;;; ret (default_site filename)
  end.

(** Lines 278-302 *)
Definition rename_long (file : string) (rinexfileobj : RinexFile.t)
  : M RinexFile.t :=
  if Config.name cfg then
    site <- resolve_site file rinexfileobj ;;
    ret (RinexFile.set_filename (long_name site rinexfileobj) rinexfileobj)
  else ret rinexfileobj.

(** Lines 334-340 *)
Definition apply_metadata (mv : metadata_vars) (o : RinexFile.t) : RinexFile.t :=
  RinexFile.invoke (Positional "set_observable_type" [Some (mv_observable_type mv)])
  (RinexFile.invoke (Keyword "set_agencies" (agencies mv))
  (RinexFile.invoke (Keyword "set_antenna_delta" (antenna_delta mv))
  (RinexFile.invoke (Keyword "set_antenna_pos" (antenna_pos mv))
  (RinexFile.invoke (Keyword "set_antenna" (antenna mv))
  (RinexFile.invoke (Keyword "set_receiver" (receiver mv))
  (RinexFile.invoke (Positional "set_marker" [Some (fourchar_id mv)]) o)))))).

(** Lines 308-318: the station of the header against the station log *)
Definition check_station (sl : SiteLog.t) (file : string)
  (rinexfileobj : RinexFile.t) : M unit :=
  let sitelog_sta_code := Py.str_lower (SiteLog.four_character_id sl) in
  let station_meta := Py.str_lower (RinexFile.station rinexfileobj) in
  when (negb (bool_decide (sitelog_sta_code = station_meta)))
       (if negb (Config.force cfg) then
          log ERROR
              ("33 - File's station does not correspond to provided sitelog - use -f option to force "
               +:+ file)
        else
          log WARNING
              ("34 - File's station does not correspond to provided sitelog, processing anyway - "
               +:+ file) ;;;
          continue_).

(** Lines 320-340: the instrumentation of the period of the file *)
Definition resolve_period (sl : SiteLog.t) (file : string)
  (rinexfileobj : RinexFile.t) : M RinexFile.t :=
  let '(metadata_vars, ignored) :=
    rinex_metadata_lines sl (RinexFile.start_date rinexfileobj)
                         (RinexFile.end_date rinexfileobj) (Config.ignore cfg) in
  match metadata_vars with
  | None =>
      log ERROR
          ("35 - No instrumentation corresponding to the data period on the sitelog : "
           +:+ file) ;;;
      continue_
  | Some mv =>
      when ignored
           (log WARNING
                ("36 - Instrumentation cames from merged periods of sitelog with different firmwares, processing anyway - "
                 +:+ file)) ;;;
      ret (apply_metadata mv rinexfileobj)
  end.

(** Lines 304-340 *)
Definition sitelog_step (file : string) (rinexfileobj : RinexFile.t)
  : M RinexFile.t :=
  match sitelogobj with
  | Some sl =>
      set_modification_source (SiteLog.filename sl) ;;;
      check_station sl file rinexfileobj ;;;
      resolve_period sl file rinexfileobj
  | None => ret rinexfileobj
  end.

(** Lines 346-366 *)
Definition apply_keywords (kw : kwargs) (o : RinexFile.t) : RinexFile.t :=
  let get k := kw_get k kw in
  RinexFile.invoke (Positional "set_observable_type" [get "observables"])
  (RinexFile.invoke (Positional "set_agencies" [get "operator"; get "agency"])
  (RinexFile.invoke (Positional "set_antenna_delta"
     [get "antenna_X_delta"; get "antenna_Y_delta"; get "antenna_Z_delta"])
  (RinexFile.invoke (Positional "set_antenna_pos"
     [get "antenna_X_pos"; get "antenna_Y_pos"; get "antenna_Z_pos"])
  (RinexFile.invoke (Positional "set_antenna" [get "antenna_serial"; get "antenna_type"])
  (RinexFile.invoke (Positional "set_receiver"
     [get "receiver_serial"; get "receiver_type"; get "receiver_fw"])
  (RinexFile.invoke (Positional "set_marker" [get "station"]) o)))))).

(** Lines 342-366 *)
Definition keyword_step (rinexfileobj : RinexFile.t) : M RinexFile.t :=
  match Config.modification_kw cfg with
  | Some kw =>
      if kw_truthy (Config.modification_kw cfg) then
        set_modification_source "command line" ;;;
        ret (apply_keywords kw rinexfileobj)
      else ret rinexfileobj
  | None => ret rinexfileobj
  end.

(** Lines 371-375 *)
Definition comment_step (rinexfileobj : RinexFile.t) : M RinexFile.t :=
  let o1 :=
    RinexFile.add_comment
      ("rinexmoded on " +:+ Date.strftime "%Y-%m-%d %H:%M" now) rinexfileobj in
  o2 <- (if Py.truthy (Config.sitelog cfg) || kw_truthy (Config.modification_kw cfg)
         then
           src <- get_modification_source ;;
           ret (RinexFile.add_comment ("rinexmoded from " +:+ src) o1)
         else ret o1) ;;
  if Py.truthy (Config.marker cfg) then
    src <- get_modification_source ;;
    ret (RinexFile.add_comment ("file assigned  from " +:+ src) o2)
  else ret o2.

(** Lines 377-384 *)
Definition write_step (myoutputfolder : string) (rinexfileobj : RinexFile.t)
  : M unit :=
  c <- get_compression ;;
  when (negb (Py.truthy c))
       (set_compression (RinexFile.compression rinexfileobj)) ;;;
  c <- get_compression ;;
  f <- get_fs ;;
  emit (Write rinexfileobj myoutputfolder c) ;;;
  let '(f', outputfile) := write_to_path rinexfileobj myoutputfolder c f in
  update_fs (fun _ => f') ;;;
  when (Config.verbose cfg) (log INFO ("Output file : " +:+ outputfile)).

(** Lines 233-302: up to the long name *)
Definition prepare (file : string) : M (string * RinexFile.t) :=
  log INFO ("# File : " +:+ file) ;;;
  when (bool_decide (abspath (dirname file) = outputfolder))
       (log ERROR ("30 - Input and output folders are the same ! - " +:+ file) ;;;
        continue_) ;;;
  myoutputfolder <- resolve_outputfolder file ;;
  rinexfileobj <- load file ;;
  log_metadata rinexfileobj ;;;
  let rinexfileobj := rename_marker rinexfileobj in
  rinexfileobj <- rename_long file rinexfileobj ;;
  ret (myoutputfolder, rinexfileobj).

(** Lines 342-384: from the keyword overrides to the write *)
Definition finish (myoutputfolder : string) (rinexfileobj : RinexFile.t) : M unit :=
  rinexfileobj <- keyword_step rinexfileobj ;;
  log_metadata rinexfileobj ;;;
  rinexfileobj <- comment_step rinexfileobj ;;
  write_step myoutputfolder rinexfileobj.

Definition process_file (file : string) : M unit :=
  prepared <- prepare file ;;
  rinexfileobj <- sitelog_step file (snd prepared) ;;
  finish (fst prepared) rinexfileobj.

(** The [for] loop of line 231: [continue] and the end of the body both
    move on to the next file. *)
Fixpoint loop (files : list string) : M unit :=
  match files with
  | [] => ret tt
  | file :: rest =>
      fun s =>
        match process_file file s with
        | Next _ s' | Continue s' => loop rest s'
        | Return s' => Return s'
        | Raise e s' => Raise e s'
        end
  end.

Definition for_files (items : file_items) : M unit :=
  match items with
  | Paths files => loop files
  | Nested _ => raise TypeError   (* line 233: str + list *)
  end.

End File.

(** ** The function [rinexmod] *)

(** The test of lines 147-151: the argument is a list, or the path of an
    existing file. *)
Definition input_exists (cfg : Config.t) (f : FS) : bool :=
  match Config.rinexlist cfg with
  | FileList _ => true
  | ListFile path => isfile f path
  end.

(** Lines 128-201: every check that can end the run before the file list
    is read. The result is the absolute output folder and the station log. *)
Definition validate (cfg : Config.t) : M (string * option SiteLog.t) :=
  let sitelog := Config.sitelog cfg in
  let modification_kw := Config.modification_kw cfg in
  when (Py.truthy sitelog && kw_truthy modification_kw)
       (print "# ERROR : If you get metadata from sitelog, don't provide arguments for modification (-k, --modification_kw option) !" ;;;
        return_) ;;;
  when (negb (Py.truthy sitelog) && negb (kw_truthy modification_kw)
        && negb (Py.truthy (Config.marker cfg)) && negb (Config.name cfg))
       (print "# ERROR : No action asked, provide at least one of the following args : --sitelog, --modification_kw, --marker, --name." ;;;
        return_) ;;;
  when (Config.force cfg && negb (Py.truthy sitelog))
       (print "# WARNING : --force option is meaningful only when using also --sitelog option") ;;;
  when (Config.ignore cfg && negb (Py.truthy sitelog))
       (print "# WARNING : --ignore option is meaningful only when using also --sitelog option") ;;;
  match Config.rinexlist cfg with
  | FileList _ => ret tt
  | ListFile path =>
      f <- get_fs ;;
      when (negb (isfile f path))
           (print ("# ERROR : The input file doesn't exist : " +:+ path) ;;;
            return_)
  end ;;;
  let outputfolder := abspath (Config.outputfolder cfg) in
  f <- get_fs ;;
  when (negb (isdir f outputfolder))
       (emit (Mkdir outputfolder) ;;; update_fs (mkdir outputfolder)) ;;;
  let dt := Date.strftime "%Y%m%d%H%M%S" now in
  let logfile := path_join outputfolder (dt +:+ "_" +:+ "rinexmod.log") in
  emit (OpenLog logfile) ;;;
  sitelogobj <- parse_sitelog sitelog ;;
  match modification_kw with
  | Some kw => when (kw_truthy modification_kw) (check_keywords kw)
  | None => ret tt
  end ;;;
  ret (outputfolder, sitelogobj).

(** Lines 203-388 *)
Definition body (cfg : Config.t) : M unit :=
  validated <- validate cfg ;;
  rinexlist <- read_rinexlist (Config.lone cfg) (Config.rinexlist cfg) ;;
  nine_char_dict <- read_ninecharfile (Config.ninecharfile cfg) ;;
  for_files cfg (fst validated) (snd validated) nine_char_dict rinexlist ;;;
  emit ClearHandlers.

(** The outcome of a call. *)
Inductive result :=
| Returned (s : state)
| Raised (e : exn) (s : state).

Definition rinexmod (cfg : Config.t) (fs0 : FS) : result :=
  match body cfg (mk_state fs0 [] (Config.compression cfg) None) with
  | Next _ s | Continue s | Return s => Returned s
  | Raise e s => Raised e s
  end.

Definition final (r : result) : state :=
  match r with Returned s | Raised _ s => s end.

End Rinexmod.

Arguments Next {os A} a s.
Arguments Continue {os A} s.
Arguments Return {os A} s.
Arguments Raise {os A} e s.

(** ** A small concrete installation

    A POSIX-like [os.path], three directories of data files and one
    station log, on which the function can be run. *)

Module Demo.

(** The part of a path up to and including its last slash, if any. *)
Fixpoint head_of (p : string) : option string :=
  match p with
  | EmptyString => None
  | String c r =>
      match head_of r with
      | Some h => Some (String c h)
      | None => if decide (c = "/"%char) then Some (String c "") else None
      end
  end.

Fixpoint rstrip_slash_rev (r : string) : string :=
  match r with
  | String c r' => if decide (c = "/"%char) then rstrip_slash_rev r' else r
  | EmptyString => EmptyString
  end.

(** [posixpath.dirname] *)
Definition posix_dirname (p : string) : string :=
  match head_of p with
  | None => ""
  | Some h =>
      match rstrip_slash_rev (String.rev h) with
      | EmptyString => h                      (* nothing but slashes *)
      | r => String.rev r
      end
  end.

Fixpoint lstrip_slash (s : string) : string :=
  match s with
  | String c r => if decide (c = "/"%char) then lstrip_slash r else s
  | EmptyString => EmptyString
  end.

(** [relpath] of a path below [start] *)
Definition posix_relpath (p start : string) : string :=
  if Py.prefix_of start p then
    match lstrip_slash (Py.drop (String.length start) p) with
    | EmptyString => "."
    | r => r
    end
  else p.

(** The lines of the nine-character list file *)
Definition nine_lines : list string :=
  ["ABCD00FRA" +:+ Py.nl; "abcd00REU" +:+ Py.nl; "wxyz00DEU" +:+ Py.nl].

(** The file system: the directories that exist. *)
Definition os : OS := {|
  FS := list string;
  now := mk_datetime 2021 2 7 9 30 0;
  abspath := fun p => p;
  dirname := posix_dirname;
  path_join := fun a b => a +:+ "/" +:+ b;
  relpath := posix_relpath;
  isfile := fun _ p => bool_decide (p = "/lists/nine.txt");
  isdir := fun f p => bool_decide (p ∈ f);
  mkdir := fun p f => p :: f;
  makedirs := fun p f => p :: f;
  readlines := fun _ p =>
    if decide (p = "/lists/nine.txt")
    then Some nine_lines
    else None
|}.

Definition fs0 : @FS os := ["/out"].

Definition rinex_file (status : nat) (filename period : string) (start : datetime)
  (compression station : string) : RinexFile.t :=
  RinexFile.mk status filename period start
               (mk_datetime (year start) (month start) (day start) 23 59 30)
               "30S" "M" (Some compression) station [].

Definition files (path : string) : RinexFile.t :=
  if decide (path = "/data/abcd0740.21d.Z") then
    rinex_file 0 "abcd0740.21d" "01D" (mk_datetime 2021 3 15 13 45 0) "Z" "ABCD"
  else if decide (path = "/data/wxyz0740.21d.gz") then
    rinex_file 0 "wxyz0740.21d" "01D" (mk_datetime 2021 3 15 0 0 0) "gz" "WXYZ"
  else if decide (path = "/data/abcd074n.21d.gz") then
    rinex_file 0 "abcd074n.21d" "01H" (mk_datetime 2021 3 15 13 45 0) "gz" "abcd"
  else if decide (path = "/data/abcd0740.20d.Z") then
    rinex_file 0 "abcd0740.20d" "01D" (mk_datetime 2020 3 14 0 0 0) "Z" "ABCD"
  else if decide (path = "/data/abcd0740.19d.Z") then
    rinex_file 0 "abcd0740.19d" "01D" (mk_datetime 2019 3 15 0 0 0) "Z" "ABCD"
  else if decide (path = "/out/abcd0740.21d.Z") then
    rinex_file 0 "abcd0740.21d" "01D" (mk_datetime 2021 3 15 0 0 0) "Z" "ABCD"
  else if decide (path = "/data/notes.txt") then
    rinex_file 2 "notes.txt" "" (mk_datetime 1 1 1 0 0 0) "" ""
  else if decide (path = "/data/empty.d.Z") then
    rinex_file 3 "empty.d" "" (mk_datetime 1 1 1 0 0 0) "Z" ""
  else if decide (path = "/data/broken.d.gz") then
    rinex_file 4 "broken.d" "" (mk_datetime 1 1 1 0 0 0) "gz" ""
  else
    rinex_file 1 "" "" (mk_datetime 1 1 1 0 0 0) "" "".

Definition rinex : @RinexAPI os := {|
  RinexFile_init := fun _ path => files path;
  get_metadata := fun o => RinexFile.filename o;
  write_to_path := fun o folder c f =>
    (f, folder +:+ "/" +:+ RinexFile.filename o +:+
        match c with Some e => "." +:+ e | None => "" end)
|}.

Definition instrumentation : metadata_vars :=
  mk_metadata "ABCD" "GPS+GLO"
              [("operator", "IPGP"); ("agency", "IPGP")]
              [("serial", "5137K"); ("type", "TRIMBLE NETR9"); ("firmware", "5.45")]
              [("serial", "1441"); ("type", "TRM57971.00     NONE")]
              [("X", "4433469.9"); ("Y", "362672.7"); ("Z", "4556211.6")]
              [("X", "0.0"); ("Y", "0.0"); ("Z", "0.1")].

(** The station log of ABCD: one period covers 2021; 2019 is covered by
    two periods that differ by their firmware; 2020 is not covered. *)
Definition sitelog : @SiteLogAPI os := {|
  SiteLog_init := fun _ path =>
    SiteLog.mk (if decide (path = "/logs/unreadable.log") then 1 else 0)
               "abcd_20210101.log" "ABCD";
  rinex_metadata_lines := fun _ start _ ignore =>
    if decide (year start = 2021) then (Some instrumentation, false)
    else if decide (year start = 2019) then
      (if ignore then (Some instrumentation, true) else (None, false))
    else (None, false)
|}.

Definition s0 : @state os := mk_state fs0 [] None None.

Definition run (cfg : Config.t) : @result os :=
  @rinexmod os rinex sitelog cfg fs0.

(** [rinexmod(files, '/out', 0, 0, False, 0, False, 0, False, 0, 0, 0, 0)] *)
Definition defaults (files : list string) : Config.t :=
  Config.mk (FileList files) "/out" None false false None false None false
            None None false None.

Definition with_marker (m : string) (c : Config.t) : Config.t :=
  Config.mk (Config.rinexlist c) (Config.outputfolder c) (Some m) (Config.name c)
            (Config.lone c) (Config.sitelog c) (Config.force c)
            (Config.reconstruct c) (Config.ignore c) (Config.ninecharfile c)
            (Config.modification_kw c) (Config.verbose c) (Config.compression c).

Definition with_name (c : Config.t) : Config.t :=
  Config.mk (Config.rinexlist c) (Config.outputfolder c) (Config.marker c) true
            (Config.lone c) (Config.sitelog c) (Config.force c)
            (Config.reconstruct c) (Config.ignore c) (Config.ninecharfile c)
            (Config.modification_kw c) (Config.verbose c) (Config.compression c).

Definition with_sitelog (force ignore : bool) (c : Config.t) : Config.t :=
  Config.mk (Config.rinexlist c) (Config.outputfolder c) (Config.marker c)
            (Config.name c) (Config.lone c) (Some "/logs/abcd_20210101.log") force
            (Config.reconstruct c) ignore (Config.ninecharfile c)
            (Config.modification_kw c) (Config.verbose c) (Config.compression c).

Definition with_kw (kw : kwargs) (c : Config.t) : Config.t :=
  Config.mk (Config.rinexlist c) (Config.outputfolder c) (Config.marker c)
            (Config.name c) (Config.lone c) (Config.sitelog c) (Config.force c)
            (Config.reconstruct c) (Config.ignore c) (Config.ninecharfile c)
            (Some kw) (Config.verbose c) (Config.compression c).

Definition with_ninecharfile (c : Config.t) : Config.t :=
  Config.mk (Config.rinexlist c) (Config.outputfolder c) (Config.marker c)
            (Config.name c) (Config.lone c) (Config.sitelog c) (Config.force c)
            (Config.reconstruct c) (Config.ignore c) (Some "/lists/nine.txt")
            (Config.modification_kw c) (Config.verbose c) (Config.compression c).

Definition keyword_run (files : list string) : Config.t :=
  with_kw [("station", "QQQQ")] (defaults files).

Definition sitelog_run (force ignore : bool) (files : list string) : Config.t :=
  with_sitelog force ignore (defaults files).

Definition marker_run (m : string) (files : list string) : Config.t :=
  with_marker m (defaults files).

Definition station_log : SiteLog.t := SiteLog.mk 0 "abcd_20210101.log" "ABCD".

(** The state of an iteration once [file] is loaded, and the same with
    [modification_source] bound to the station log. *)
Definition loaded (file : string) : @state os :=
  mk_state fs0 [Log INFO ("# File : " +:+ file); Load file] None None.

Definition loaded_with_source (file : string) : @state os :=
  mk_state fs0 [Log INFO ("# File : " +:+ file); Load file] None
           (Some "abcd_20210101.log").

(** The writes of a run, in order: folder, file name and compression. *)
Definition writes (r : @result os) : list (string * string * option string) :=
  omap (fun e => match e with
                 | Write o folder c => Some (folder, RinexFile.filename o, c)
                 | _ => None
                 end) (@trace os (final r)).

(** The records that reach the log file, in order. *)
Definition logged (r : @result os) : list event :=
  filter (fun e => to_logfile e = true) (@trace os (final r)).

End Demo.


(** ** The command line (lines 395-400) *)

(** [s.split(sep)] for a separator of one character: one part more than
    there are separators, the empty string gives one empty part. *)
Fixpoint split (sep : ascii) (s : string) : list string :=
  match s with
  | EmptyString => [""]
  | String c r =>
      if decide (c = sep) then "" :: split sep r
      else
        match split sep r with
        | p :: ps => String c p :: ps
        | [] => [String c ""]
        end
  end.

(** [s.count(sep)] *)
Fixpoint count_char (sep : ascii) (s : string) : nat :=
  match s with
  | EmptyString => 0
  | String c r => (if decide (c = sep) then 1 else 0) + count_char sep r
  end.

(** [d[k] = v]: the value of a key that is present is replaced where the
    key stands, a new key is appended. *)
Fixpoint dict_set (k v : string) (d : kwargs) : kwargs :=
  match d with
  | [] => [(k, v)]
  | (k', v') :: r =>
      if decide (k' = k) then (k, v) :: r else (k', v') :: dict_set k v r
  end.

Inductive parsed :=
| Parsed (d : kwargs)
| ValueError.              (* [key, value = ...] with other than two parts *)

(** The loop of [ParseKwargs.__call__] over the values of the option *)
Fixpoint ParseKwargs_loop (d : kwargs) (values : list string) : parsed :=
  match values with
  | [] => Parsed d
  | value :: rest =>
      match split "=" value with
      | [key; value] => ParseKwargs_loop (dict_set key value d) rest
      | _ => ValueError
      end
  end.

(** [ParseKwargs.__call__]: an empty dictionary, then the loop *)
Definition ParseKwargs (values : list string) : parsed := ParseKwargs_loop [] values.

(** A pair as it is typed after [-k] *)
Definition keyword_token (p : string * string) : string := p.1 +:+ "=" +:+ p.2.

(** ** [loggersVerbose] (lines 93-119) *)

Inductive stream :=
| Prompt
| LogFile (path : string).

Module Logging.

(** The levels of [logging]; the run itself issues [INFO], [WARNING] and
    [ERROR] only. *)
Inductive level := DEBUG | INFO | WARNING | ERROR | CRITICAL.

Definition levelno (l : level) : nat :=
  match l with
  | DEBUG => 10 | INFO => 20 | WARNING => 30 | ERROR => 40 | CRITICAL => 50
  end.

Definition levelname (l : level) : string :=
  match l with
  | DEBUG => "DEBUG" | INFO => "INFO" | WARNING => "WARNING"
  | ERROR => "ERROR" | CRITICAL => "CRITICAL"
  end.

(** A handler: where it writes, the least level it takes, and its
    formatter, from the time, the level and the message of a record. *)
Record handler := mk_handler {
  handler_stream : stream;
  handler_level : nat;
  handler_formatter : string -> level -> string -> string
}.

(** The root logger: its level and the handlers attached so far. *)
Record logger := mk_logger {
  logger_level : nat;
  handlers : list handler
}.

(** ['%(asctime)s - %(levelname)-7s - %(message)s'] *)
Definition promptformatter (asctime : string) (l : level) (message : string) : string :=
  asctime +:+ " - " +:+ Py.ljust 7 (levelname l) +:+ " - " +:+ message.

(** ['%(asctime)s - %(levelname)s - %(message)s'] *)
Definition fileformatter (asctime : string) (l : level) (message : string) : string :=
  asctime +:+ " - " +:+ levelname l +:+ " - " +:+ message.

(** [loggersVerbose(logfile)] on the root logger [root] as
    [logging.getLogger()] returns it: the level is set to [DEBUG], the
    handlers already attached stay, the prompt handler at [INFO] and then
    the file handler at [WARNING] are appended. *)
Definition loggersVerbose (logfile : string) (root : logger) : logger :=
  mk_logger 10 (handlers root ++ [mk_handler Prompt 20 promptformatter;
                                  mk_handler (LogFile logfile) 30 fileformatter]).

(** What the handlers [hs] emit for a record: each handler whose level
    the record reaches, in the order of attachment. *)
Definition deliver (hs : list handler) (asctime : string) (l : level)
  (message : string) : list (stream * string) :=
  omap (fun h =>
          if handler_level h <=? levelno l
          then Some (handler_stream h, handler_formatter h asctime l message)
          else None) hs.

(** [logger.log(l, message)]: nothing below the level of the logger *)
Definition handle (lg : logger) (asctime : string) (l : level) (message : string)
  : list (stream * string) :=
  if logger_level lg <=? levelno l then deliver (handlers lg) asctime l message
  else [].

End Logging.

(** The level of a record of the run, as [logging] has it *)
Definition logging_level (l : level) : Logging.level :=
  match l with
  | INFO => Logging.INFO
  | WARNING => Logging.WARNING
  | ERROR => Logging.ERROR
  end.

(** ** Vocabulary of the properties *)

(** [cfg] with other values of [force] and [ignore] *)
Definition with_flags (force ignore : bool) (c : Config.t) : Config.t :=
  Config.mk (Config.rinexlist c) (Config.outputfolder c) (Config.marker c)
            (Config.name c) (Config.lone c) (Config.sitelog c) force
            (Config.reconstruct c) ignore (Config.ninecharfile c)
            (Config.modification_kw c) (Config.verbose c) (Config.compression c).

(** Every character is below 128: on such a string [str.lower] and
    [str.upper] are the maps of [Py.str_lower] and [Py.str_upper]. *)
Fixpoint is_ascii (s : string) : bool :=
  match s with
  | EmptyString => true
  | String c r => (nat_of_ascii c <? 128) && is_ascii r
  end.

(** The message ends with the path of the file. *)
Definition mentions (file msg : string) : Prop := exists pre, msg = pre +:+ file.

(** A write with compression [c] / into [folder]; anything else passes. *)
Definition written_with (c : option string) (e : event) : Prop :=
  match e with Write _ _ c' => c' = c | _ => True end.

Definition written_to (folder : string) (e : event) : Prop :=
  match e with Write _ folder' _ => folder' = folder | _ => True end.

Definition count_writes (t : list event) : nat :=
  length (filter (fun e => is_write e = true) t).

Section Logic.

Context `{os : OS}.

(** A specification of a block: from a state in [P], falling through ends
    in [Q], [continue] in [C], [return] in [R] and an exception in [X]. *)
Definition hoare {A} (P : state -> Prop) (m : M A)
  (Q : A -> state -> Prop) (C R X : state -> Prop) : Prop :=
  forall s, P s ->
    match m s with
    | Next a s' => Q a s'
    | Continue s' => C s'
    | Return s' => R s'
    | Raise _ s' => X s'
    end.

(** A property of the state that events other than writes, the file system
    and [modification_source] do not disturb. *)
Record insensitive (I : state -> Prop) : Prop := mk_insensitive {
  ins_emit : forall e s, is_write e = false -> I s -> I (record [e] s);
  ins_fs : forall f s,
      I s -> I (mk_state f (trace s) (compression s) (modification_source s));
  ins_source : forall src s,
      I s -> I (mk_state (fs s) (trace s) (compression s) (Some src))
}.

(** The last event is a warning or an error about [file]. *)
Definition loud_last (file : string) (s : state) : Prop :=
  exists lvl msg,
    last (trace s) = Some (Log lvl msg) /\ lvl <> INFO /\ mentions file msg.

(** The last event is the print of an error. *)
Definition error_last (s : state) : Prop :=
  exists msg,
    last (trace s) = Some (Print msg) /\ Py.prefix_of "# ERROR" msg = true.

Definition never (s : state) : Prop := False.

(** The state in which a block ends, however it ends *)
Definition after {A} (r : flow A) : state :=
  match r with Next _ s | Continue s | Return s | Raise _ s => s end.

(** The specification of a block that writes nothing: [I] is kept
    throughout, a [continue] happens in [C] and a [return] in [R]. *)
Definition stage {A} (I C R : state -> Prop) (m : M A) : Prop :=
  hoare I m (fun _ => I) (fun s => I s /\ C s) (fun s => I s /\ R s) I.

(** Where line 381 writes the file (lines 239-250) *)
Definition destination (cfg : Config.t) (outputfolder file : string) : string :=
  match Config.reconstruct cfg with
  | Some reconstruct =>
      if Py.truthy (Config.reconstruct cfg)
      then path_join outputfolder (relpath (dirname file) reconstruct)
      else outputfolder
  | None => outputfolder
  end.

(** The file system after lines 155-157 *)
Definition made_outputfolder (cfg : Config.t) (f : FS) : FS :=
  if isdir f (abspath (Config.outputfolder cfg)) then f
  else mkdir (abspath (Config.outputfolder cfg)) f.

End Logic.

(** ** More configurations of the concrete installation *)

Module DemoMore.

Definition with_compression (c : string) (cfg : Config.t) : Config.t :=
  Config.mk (Config.rinexlist cfg) (Config.outputfolder cfg) (Config.marker cfg)
            (Config.name cfg) (Config.lone cfg) (Config.sitelog cfg)
            (Config.force cfg) (Config.reconstruct cfg) (Config.ignore cfg)
            (Config.ninecharfile cfg) (Config.modification_kw cfg)
            (Config.verbose cfg) (Some c).

Definition with_reconstruct (prefix : string) (cfg : Config.t) : Config.t :=
  Config.mk (Config.rinexlist cfg) (Config.outputfolder cfg) (Config.marker cfg)
            (Config.name cfg) (Config.lone cfg) (Config.sitelog cfg)
            (Config.force cfg) (Some prefix) (Config.ignore cfg)
            (Config.ninecharfile cfg) (Config.modification_kw cfg)
            (Config.verbose cfg) (Config.compression cfg).

Definition with_list_file (path : string) (cfg : Config.t) : Config.t :=
  Config.mk (ListFile path) (Config.outputfolder cfg) (Config.marker cfg)
            (Config.name cfg) (Config.lone cfg) (Config.sitelog cfg)
            (Config.force cfg) (Config.reconstruct cfg) (Config.ignore cfg)
            (Config.ninecharfile cfg) (Config.modification_kw cfg)
            (Config.verbose cfg) (Config.compression cfg).

Definition with_sitelog_path (path : string) (cfg : Config.t) : Config.t :=
  Config.mk (Config.rinexlist cfg) (Config.outputfolder cfg) (Config.marker cfg)
            (Config.name cfg) (Config.lone cfg) (Some path)
            (Config.force cfg) (Config.reconstruct cfg) (Config.ignore cfg)
            (Config.ninecharfile cfg) (Config.modification_kw cfg)
            (Config.verbose cfg) (Config.compression cfg).

(** A loaded file whose name has two characters *)
Definition short_name : RinexFile.t :=
  Demo.rinex_file 0 "ab" "01D" (mk_datetime 2021 3 15 0 0 0) "Z" "ABCD".

(** Two files of different compressions, and keywords *)
Definition two_files : Config.t :=
  Demo.keyword_run ["/data/abcd0740.21d.Z"; "/data/wxyz0740.21d.gz"].

End DemoMore.

(** * Properties *)

(** ** Strings *)

Lemma app_cons (c : ascii) (a b : string) :
  String c a +:+ b = String c (a +:+ b).
Proof. reflexivity. Qed.

Lemma str_length_app (a b : string) :
  String.length (a +:+ b) = String.length a + String.length b.
Proof.
  induction a as [|c a IH]; [reflexivity|].
  rewrite app_cons. cbn. rewrite IH. reflexivity.
Qed.

Lemma str_length_map (f : ascii -> ascii) (s : string) :
  String.length (Py.str_map f s) = String.length s.
Proof. induction s as [|c s IH]; cbn; [reflexivity|]. rewrite IH. reflexivity. Qed.

Lemma str_length_drop (n : nat) (s : string) :
  String.length (Py.drop n s) = String.length s - n.
Proof.
  revert s. induction n as [|n IH]; intros [|c s]; cbn; try reflexivity.
  apply IH.
Qed.

Lemma str_length_take (n : nat) (s : string) :
  n <= String.length s -> String.length (Py.take n s) = n.
Proof.
  revert s. induction n as [|n IH]; intros [|c s]; cbn; intros Hn;
    try reflexivity; try lia.
  f_equal. apply IH. lia.
Qed.

(** ** The nine-character index *)

Lemma nine_char_index_absent (acc : gmap string string) (lines : list string)
  (k : string) :
  (forall l, l ∈ lines -> Py.str_lower (Py.take 4 l) <> k) ->
  nine_char_index acc lines !! k = acc !! k.
Proof.
  revert acc. induction lines as [|l lines IH]; intros acc Hk; [reflexivity|].
  cbn. rewrite IH.
  - apply lookup_insert_ne. apply Hk. left.
  - intros l' Hl'. apply Hk. right. exact Hl'.
Qed.

Lemma nine_char_index_app (acc : gmap string string) (pre post : list string) :
  nine_char_index acc (pre ++ post) = nine_char_index (nine_char_index acc pre) post.
Proof.
  revert acc. induction pre as [|l pre IH]; intros acc; [reflexivity|].
  cbn. apply IH.
Qed.

(** C9. The index maps the lower-cased first four characters of a line to
    the trimmed line; of several lines with the same key the last one is
    kept; a key that no line has is absent. *)
Theorem nine_char_index_last_wins (pre post : list string) (line : string) :
  (forall l, l ∈ post -> Py.str_lower (Py.take 4 l) <> Py.str_lower (Py.take 4 line)) ->
  nine_char_index ∅ (pre ++ line :: post) !! Py.str_lower (Py.take 4 line)
    = Some (Py.strip line)
  /\ (forall k, (forall l, l ∈ pre ++ line :: post -> Py.str_lower (Py.take 4 l) <> k) ->
               nine_char_index ∅ (pre ++ line :: post) !! k = None).
Proof.
  intros Hpost. split.
  - rewrite nine_char_index_app. cbn.
    rewrite nine_char_index_absent by exact Hpost.
    apply lookup_insert_eq.
  - intros k Hk. rewrite nine_char_index_absent by exact Hk. apply lookup_empty.
Qed.

(** ** The marker *)

(** The length of a renamed file: [lowered] stands for the lower-cased
    marker, of which nothing is used but its length. *)
Lemma length_app_drop (lowered filename : string) :
  String.length (lowered +:+ Py.drop 4 filename)
  = String.length lowered + (String.length filename - 4).
Proof. rewrite str_length_app, str_length_drop. reflexivity. Qed.

(** C10. Any non-empty marker, whatever its length, replaces the first
    four characters of the file name by its lower-cased form. The new name
    has the length of the lower-cased marker plus what follows the fourth
    character of the old name, so on a name of four characters or more the
    length is kept exactly when the lower-cased marker has four
    characters; for a marker of ASCII characters that is when the marker
    has four characters. *)
Theorem marker_step_length (cfg : Config.t) (marker : string) (o : RinexFile.t) :
  Config.marker cfg = Some marker ->
  marker <> "" ->
  RinexFile.filename (rename_marker cfg o)
  = Py.str_lower marker +:+ Py.drop 4 (RinexFile.filename o)
  /\ String.length (RinexFile.filename (rename_marker cfg o))
     = String.length (Py.str_lower marker)
       + (String.length (RinexFile.filename o) - 4)
  /\ (4 <= String.length (RinexFile.filename o) ->
      (String.length (RinexFile.filename (rename_marker cfg o))
       = String.length (RinexFile.filename o)
       <-> String.length (Py.str_lower marker) = 4))
  /\ (is_ascii marker = true ->
      String.length (Py.str_lower marker) = String.length marker).
Proof.
  intros Hm Hne.
  assert (Hname : RinexFile.filename (rename_marker cfg o)
                  = Py.str_lower marker +:+ Py.drop 4 (RinexFile.filename o)).
  { unfold rename_marker. rewrite Hm. cbn.
    rewrite bool_decide_eq_false_2 by exact Hne. reflexivity. }
  split; [exact Hname|]. rewrite Hname, length_app_drop.
  split; [reflexivity|]. split; [intros Hlen; lia|].
  intros _. apply str_length_map.
Qed.

(** ** The long name *)

Lemma app_empty_r (s : string) : s +:+ "" = s.
Proof.
  induction s as [|c s IH]; [reflexivity|]. rewrite app_cons, IH. reflexivity.
Qed.

Lemma strftime_daily (d : datetime) :
  Date.strftime "%Y%j0000" d
  = Py.zpad 4 (year d) +:+ Py.zpad 3 (Date.yday d) +:+ "0000".
Proof. reflexivity. Qed.

Lemma strftime_subdaily (d : datetime) :
  Date.strftime "%Y%j%H%M" d
  = Py.zpad 4 (year d) +:+ Py.zpad 3 (Date.yday d) +:+
    Py.zpad 2 (hour d) +:+ Py.zpad 2 (minute d).
Proof.
  change (Date.strftime "%Y%j%H%M" d)
    with (Py.zpad 4 (year d) +:+ Py.zpad 3 (Date.yday d) +:+
          Py.zpad 2 (hour d) +:+ Py.zpad 2 (minute d) +:+ "").
  rewrite app_empty_r. reflexivity.
Qed.

Lemma long_name_refines (site : string) (o : RinexFile.t) :
  long_name site o
  = long_name_spec site (RinexFile.start_date o) (RinexFile.file_period o)
                   (RinexFile.sample_rate o) (RinexFile.observable_type o).
Proof.
  unfold long_name, long_name_spec, time_token_spec, timeformat.
  destruct (decide (RinexFile.file_period o = "01D")) as [Hd|Hd].
  - rewrite strftime_daily. reflexivity.
  - rewrite strftime_subdaily. reflexivity.
Qed.

Lemma default_site_length (filename : string) :
  4 <= String.length filename -> String.length (default_site filename) = 9.
Proof.
  intros H. unfold default_site, Py.str_upper.
  rewrite str_length_app, str_length_map, str_length_take by exact H. reflexivity.
Qed.

(** ** The per-file loop *)

Section Pipeline.

Context `{os : OS} `{!RinexAPI} `{!SiteLogAPI}.

Arguments Date.strftime : simpl never.
Arguments Py.ljust : simpl never.
Arguments Py.str_lower : simpl never.
Arguments Py.str_upper : simpl never.
Arguments Py.truthy : simpl never.
Arguments Py.contains : simpl never.
Arguments marker_filename : simpl never.
Arguments long_name : simpl never.
Arguments default_site : simpl never.

Ltac step :=
  unfold bind, when, ret, log, print, emit, continue_, return_, raise,
    get_fs, update_fs, get_compression, set_compression,
    set_modification_source, get_modification_source; cbn.

Ltac destruct_write :=
  match goal with
  | |- context [write_to_path ?o ?folder ?c ?f] =>
      destruct (write_to_path o folder c f) as [f' outputfile]
  end.

Lemma record_record (evs1 evs2 : list event) (s : state) :
  record evs2 (record evs1 s) = record (evs1 ++ evs2) s.
Proof. unfold record. cbn. rewrite <- app_assoc. reflexivity. Qed.

Lemma loop_continue cfg outputfolder sl d file rest (s s' : state) :
  process_file cfg outputfolder sl d file s = Continue s' ->
  loop cfg outputfolder sl d (file :: rest) s = loop cfg outputfolder sl d rest s'.
Proof. intros Hp. cbn. rewrite Hp. reflexivity. Qed.

Lemma loop_next cfg outputfolder sl d file rest (s s' : state) :
  process_file cfg outputfolder sl d file s = Next tt s' ->
  loop cfg outputfolder sl d (file :: rest) s = loop cfg outputfolder sl d rest s'.
Proof. intros Hp. cbn. rewrite Hp. reflexivity. Qed.

Lemma loop_raise cfg outputfolder sl d file rest e (s s' : state) :
  process_file cfg outputfolder sl d file s = Raise e s' ->
  loop cfg outputfolder sl d (file :: rest) s = Raise e s'.
Proof. intros Hp. cbn. rewrite Hp. reflexivity. Qed.

(** C8. A file of the output folder: the two records of the iteration are
    the announcement of the file and error 30, nothing is loaded or
    written, and the loop goes on with the files that follow. *)
Theorem same_folder_skipped (cfg : Config.t) (sl : option SiteLog.t)
  (d : option (gmap string string)) (file : string) (rest : list string)
  (s : state) :
  abspath (dirname file) = abspath (Config.outputfolder cfg) ->
  process_file cfg (abspath (Config.outputfolder cfg)) sl d file s
  = Continue
      (record [Log INFO ("# File : " +:+ file);
               Log ERROR ("30 - Input and output folders are the same ! - "
                          +:+ file)] s)
  /\ loop cfg (abspath (Config.outputfolder cfg)) sl d (file :: rest) s
     = loop cfg (abspath (Config.outputfolder cfg)) sl d rest
         (record [Log INFO ("# File : " +:+ file);
                  Log ERROR ("30 - Input and output folders are the same ! - "
                             +:+ file)] s).
Proof.
  intros Hsame.
  assert (Hp : process_file cfg (abspath (Config.outputfolder cfg)) sl d file s
               = Continue
                   (record [Log INFO ("# File : " +:+ file);
                            Log ERROR ("30 - Input and output folders are the same ! - "
                                       +:+ file)] s)).
  { unfold process_file, prepare. step.
    rewrite bool_decide_eq_true_2 by exact Hsame. cbn.
    rewrite record_record. reflexivity. }
  split; [exact Hp|]. apply loop_continue. exact Hp.
Qed.

(** C5. With the long name asked for, the file name becomes the site, the
    time token, the period class, the sample rate and the observable type
    with [O.rnx], joined by underscores; the site is the entry of the index
    or the default site. The time token of a daily file has the year and
    the day of the year followed by [0000], whatever the hour, minute and
    second of the start time. *)
Theorem long_name_rule (cfg : Config.t) (d : option (gmap string string))
  (file : string) (o : RinexFile.t) (s : state) :
  Config.name cfg = true ->
  (exists site s',
      resolve_site d file o s = Next site s'
      /\ rename_long cfg d file o s
         = Next (RinexFile.set_filename
                   (long_name_spec site (RinexFile.start_date o)
                      (RinexFile.file_period o) (RinexFile.sample_rate o)
                      (RinexFile.observable_type o)) o) s'
      /\ (site = default_site (RinexFile.filename o)
          \/ exists dict,
              d = Some dict
              /\ dict !! Py.str_lower (Py.take 4 (RinexFile.filename o))
                 = Some site))
  /\ (forall y mo da h mi sec,
         time_token_spec "01D" (mk_datetime y mo da h mi sec)
         = Py.zpad 4 y +:+ Py.zpad 3 (Date.yday (mk_datetime y mo da 0 0 0))
           +:+ "0000").
Proof.
  intros Hname. split; [|reflexivity].
  assert (Hsite : exists site s',
             resolve_site d file o s = Next site s'
             /\ (site = default_site (RinexFile.filename o)
                 \/ exists dict,
                     d = Some dict
                     /\ dict !! Py.str_lower (Py.take 4 (RinexFile.filename o))
                        = Some site)).
  { unfold resolve_site, warn_country. step.
    destruct d as [dict|].
    - destruct (dict !! _) as [site|] eqn:Hlook.
      + eexists _, _. split; [reflexivity|]. right. exists dict.
        split; [reflexivity|exact Hlook].
      + eexists _, _. split; [reflexivity|]. left. reflexivity.
    - eexists _, _. split; [reflexivity|]. left. reflexivity. }
  destruct Hsite as (site & s' & Hsite & Hfrom). exists site, s'.
  split; [exact Hsite|]. split; [|exact Hfrom].
  unfold rename_long. rewrite Hname. unfold bind. rewrite Hsite.
  unfold ret. rewrite long_name_refines. reflexivity.
Qed.

(** ** Validation of the keywords *)

Lemma check_keywords_ok (kw : kwargs) :
  (forall k v, (k, v) ∈ kw -> k ∈ acceptable_keywords) ->
  forall s, check_keywords kw s = Next tt s.
Proof.
  induction kw as [|[k v] kw IH]; intros Hall s; [reflexivity|].
  cbn. rewrite bool_decide_eq_true_2.
  - apply IH. intros k' v' Hin. apply (Hall k' v'). right. exact Hin.
  - apply (Hall k v). left.
Qed.

Lemma check_keywords_bad (kw : kwargs) :
  (exists k v, (k, v) ∈ kw /\ k ∉ acceptable_keywords) ->
  exists k,
(k ∉ acceptable_keywords)
    /\ forall s,
        check_keywords kw s
        = Return (record [Print ("# ERROR : '" +:+ k +:+
                                 "' is not an acceptable keyword for header modification.")] s).
Proof.
  induction kw as [|[k v] kw IH]; intros (k0 & v0 & Hin & Hbad).
  - inversion Hin.
  - destruct (decide (k ∈ acceptable_keywords)) as [Hk|Hk].
    + destruct IH as (k1 & Hk1 & Hrun).
      { exists k0, v0. split; [|exact Hbad].
        apply elem_of_cons in Hin as [Heq|Hin]; [|exact Hin].
        inversion Heq; subst. contradiction. }
      exists k1. split; [exact Hk1|]. intros s. cbn.
      rewrite bool_decide_eq_true_2 by exact Hk. apply Hrun.
    + exists k. split; [exact Hk|]. intros s. cbn.
      rewrite bool_decide_eq_false_2 by exact Hk. reflexivity.
Qed.

Lemma parse_sitelog_unset (sitelog : option string) (s : state) :
  Py.truthy sitelog = false -> parse_sitelog sitelog s = Next None s.
Proof.
  intros Hs. unfold parse_sitelog. destruct sitelog as [p|]; [|reflexivity].
  rewrite Hs. reflexivity.
Qed.

Lemma validate_bad_keyword (cfg : Config.t) (kw : kwargs) (s : state) :
  Config.modification_kw cfg = Some kw ->
  (exists k v, (k, v) ∈ kw /\ k ∉ acceptable_keywords) ->
  exists s' evs msg,
    validate cfg s = Return s'
    /\ trace s' = trace s ++ evs
    /\ last evs = Some (Print msg)
    /\ Py.prefix_of "# ERROR" msg = true
    /\ Forall (fun e => is_file_event e = false) evs.
Proof.
  intros Hkw Hbad.
  assert (Ht : kw_truthy (Some kw) = true).
  { destruct Hbad as (k & v & Hin & _). destruct kw; [inversion Hin|reflexivity]. }
  destruct (check_keywords_bad kw Hbad) as (k & _ & Hck).
  unfold validate. rewrite Hkw, Ht.
  destruct (Py.truthy (Config.sitelog cfg)) eqn:Hs.
  - step. eexists _, [_], _.
    split; [reflexivity|]. split; [reflexivity|]. split; [reflexivity|].
    split; [reflexivity|]. repeat constructor.
  - destruct (Config.force cfg), (Config.ignore cfg),
      (Config.rinexlist cfg) as [path|files]; step;
      try destruct (isfile (fs s) path); step;
      try destruct (isdir (fs s) (abspath (Config.outputfolder cfg))); step;
      rewrite ?parse_sitelog_unset by exact Hs; step;
      rewrite ?Hck; step.
    all: eexists _, _, _; (split; [reflexivity|]); cbn.
    all: rewrite <- ?app_assoc.
    all: (split; [reflexivity|]).
    all: (split; [reflexivity|]).
    all: (split; [reflexivity|]).
    all: cbn; repeat constructor.
Qed.

Lemma validate_keywords_pass (cfg : Config.t) (kw : kwargs) (s : state) :
  Config.modification_kw cfg = Some kw ->
  kw <> [] ->
  (forall k v, (k, v) ∈ kw -> k ∈ acceptable_keywords) ->
  Py.truthy (Config.sitelog cfg) = false ->
  input_exists cfg (fs s) = true ->
  exists s' evs,
    validate cfg s = Next (abspath (Config.outputfolder cfg), None) s'
    /\ trace s' = trace s ++ evs
    /\ Forall (fun e => is_file_event e = false) evs.
Proof.
  intros Hkw Hne Hall Hs Hin.
  assert (Ht : kw_truthy (Some kw) = true) by (destruct kw; [contradiction|reflexivity]).
  pose proof (check_keywords_ok kw Hall) as Hck.
  unfold validate, input_exists in *. rewrite Hkw, Ht, Hs.
  destruct (Config.force cfg), (Config.ignore cfg),
    (Config.rinexlist cfg) as [path|files]; step;
    rewrite ?Hin; step;
    destruct (isdir (fs s) (abspath (Config.outputfolder cfg))); step;
    rewrite ?parse_sitelog_unset by exact Hs; step;
    rewrite ?Hck; step.
  all: eexists _, _; (split; [reflexivity|]); cbn.
  all: rewrite <- ?app_assoc.
  all: (split; [reflexivity|]).
  all: cbn; repeat constructor.
Qed.

(** C7. With keyword overrides, a key outside the fifteen accepted ones
    ends the run on an error message before any event of the file loop;
    when every key is accepted the check lets the run through, and the
    validation hands over to the reading of the file list. *)
Theorem keyword_validation (cfg : Config.t) (kw : kwargs) (fs0 : FS) :
  Config.modification_kw cfg = Some kw ->
  ((exists k v, (k, v) ∈ kw /\ k ∉ acceptable_keywords) ->
   exists s msg,
     rinexmod cfg fs0 = Returned s
     /\ last (trace s) = Some (Print msg)
     /\ Py.prefix_of "# ERROR" msg = true
     /\ Forall (fun e => is_file_event e = false) (trace s))
  /\ ((forall k v, (k, v) ∈ kw -> k ∈ acceptable_keywords) ->
      (forall s, check_keywords kw s = Next tt s)
      /\ (kw <> [] ->
          Py.truthy (Config.sitelog cfg) = false ->
          input_exists cfg fs0 = true ->
          exists s1,
            validate cfg (mk_state fs0 [] (Config.compression cfg) None)
            = Next (abspath (Config.outputfolder cfg), None) s1
            /\ Forall (fun e => is_file_event e = false) (trace s1))).
Proof.
  intros Hkw. split.
  - intros Hbad.
    destruct (validate_bad_keyword cfg kw
                (mk_state fs0 [] (Config.compression cfg) None) Hkw Hbad)
      as (s' & evs & msg & Hv & Htr & Hlast & Hpre & Hnone).
    exists s', msg. cbn in Htr. subst evs.
    unfold rinexmod, body, bind. rewrite Hv. auto.
  - intros Hall. split; [apply check_keywords_ok; exact Hall|].
    intros Hne Hs Hin.
    destruct (validate_keywords_pass cfg kw
                (mk_state fs0 [] (Config.compression cfg) None)
                Hkw Hne Hall Hs Hin) as (s1 & evs & Hv & Htr & Hnone).
    exists s1. cbn in Htr. subst evs. auto.
Qed.

(** ** From the station log to the write *)

(** Once [modification_source] is bound, the last block of the loop body
    always reaches the write, and logs nothing above [INFO]. *)
Lemma finish_writes (cfg : Config.t) (out : string) (o : RinexFile.t)
  (s : state) (src : string) :
  modification_source s = Some src ->
  exists s' pre post o' c,
    finish cfg out o s = Next tt s'
    /\ trace s' = trace s ++ pre ++ [Write o' out c] ++ post
    /\ Forall (fun e => to_logfile e = false) (pre ++ post).
Proof.
  intros Hsrc.
  unfold finish, keyword_step, log_metadata, comment_step, write_step.
  destruct (Config.verbose cfg).
  - destruct (Config.modification_kw cfg) as [kw|];
      [destruct (kw_truthy (Some kw))|];
      destruct (Py.truthy (Config.sitelog cfg)), (Py.truthy (Config.marker cfg));
      step; rewrite ?Hsrc; step; rewrite ?Hsrc; step;
      destruct (Py.truthy (compression s)); step;
      try (destruct_write; step).
    all: eexists _, [_], [_], _, _; (split; [reflexivity|]); cbn.
    all: rewrite <- ?app_assoc; cbn.
    all: (split; [reflexivity|]); repeat constructor.
  - destruct (Config.modification_kw cfg) as [kw|];
      [destruct (kw_truthy (Some kw))|];
      destruct (Py.truthy (Config.sitelog cfg)), (Py.truthy (Config.marker cfg));
      step; rewrite ?Hsrc; step; rewrite ?Hsrc; step;
      destruct (Py.truthy (compression s)); step;
      try (destruct_write; step).
    all: eexists _, [], [], _, _; (split; [reflexivity|]); cbn.
    all: rewrite <- ?app_assoc; cbn.
    all: (split; [reflexivity|]); repeat constructor.
Qed.

Lemma check_station_source (cfg : Config.t) (sl : SiteLog.t) (file : string)
  (o : RinexFile.t) (s s' : state) :
  check_station cfg sl file o s = Next tt s' ->
  modification_source s' = modification_source s.
Proof.
  unfold check_station.
  destruct (bool_decide _), (Config.force cfg); step; intros Heq;
    inversion Heq; reflexivity.
Qed.

(** The state in which [modification_source] names the station log
    (line 306). *)
Lemma set_modification_source_next (src : string) (s : state) :
  set_modification_source src s
  = Next tt (mk_state (fs s) (trace s) (compression s) (Some src)).
Proof. reflexivity. Qed.

(** C6. A file that reaches the station-log step and that the station
    check lets through: without instrumentation for its window, error 35
    is logged, the iteration ends there and the loop goes on with the next
    file; with instrumentation, a merge of periods adds warning 36 and
    nothing else, and the same file goes on to be written. *)
Theorem resolver_outcomes (cfg : Config.t) (outputfolder : string)
  (sl : SiteLog.t) (d : option (gmap string string)) (file : string)
  (rest : list string) (out : string) (o : RinexFile.t) (s s1 s2 : state) :
  prepare cfg outputfolder d file s = Next (out, o) s1 ->
  check_station cfg sl file o
    (mk_state (fs s1) (trace s1) (compression s1) (Some (SiteLog.filename sl)))
  = Next tt s2 ->
  match rinex_metadata_lines sl (RinexFile.start_date o) (RinexFile.end_date o)
                             (Config.ignore cfg) with
  | (None, _) =>
      let s3 :=
        record [Log ERROR ("35 - No instrumentation corresponding to the data period on the sitelog : " +:+ file)] s2 in
      process_file cfg outputfolder (Some sl) d file s = Continue s3
      /\ loop cfg outputfolder (Some sl) d (file :: rest) s
         = loop cfg outputfolder (Some sl) d rest s3
  | (Some mv, ignored) =>
      let s3 :=
        if ignored
        then record [Log WARNING ("36 - Instrumentation cames from merged periods of sitelog with different firmwares, processing anyway - " +:+ file)] s2
        else s2 in
      process_file cfg outputfolder (Some sl) d file s
      = finish cfg out (apply_metadata mv o) s3
      /\ exists s4 pre post o' c,
          process_file cfg outputfolder (Some sl) d file s = Next tt s4
          /\ trace s4 = trace s3 ++ pre ++ [Write o' out c] ++ post
          /\ Forall (fun e => to_logfile e = false) (pre ++ post)
  end.
Proof.
  intros Hprep Hcheck.
  pose proof (check_station_source _ _ _ _ _ _ Hcheck) as Hsrc. cbn in Hsrc.
  assert (Hstep : process_file cfg outputfolder (Some sl) d file s
                  = bind (resolve_period cfg sl file o)
                         (fun o' => finish cfg out o') s2).
  { unfold process_file, sitelog_step, bind. rewrite Hprep.
    cbn [fst snd]. unfold set_modification_source. cbv beta iota.
    rewrite Hcheck. reflexivity. }
  unfold resolve_period in Hstep.
  destruct (rinex_metadata_lines _ _ _ _) as [[mv|] ignored].
  - rewrite Hstep.
    assert (Hrun : bind (bind (when ignored (log WARNING ("36 - Instrumentation cames from merged periods of sitelog with different firmwares, processing anyway - " +:+ file)))
                              (fun _ => ret (apply_metadata mv o)))
                        (fun o' => finish cfg out o') s2
                   = finish cfg out (apply_metadata mv o)
                       (if ignored
                        then record [Log WARNING ("36 - Instrumentation cames from merged periods of sitelog with different firmwares, processing anyway - " +:+ file)] s2
                        else s2)).
    { destruct ignored; reflexivity. }
    rewrite Hrun. split; [reflexivity|].
    apply finish_writes with (src := SiteLog.filename sl).
    destruct ignored; exact Hsrc.
  - cbn zeta.
    assert (Hp : process_file cfg outputfolder (Some sl) d file s
                 = Continue (record [Log ERROR ("35 - No instrumentation corresponding to the data period on the sitelog : " +:+ file)] s2))
      by (rewrite Hstep; reflexivity).
    split; [exact Hp|]. apply loop_continue. exact Hp.
Qed.

(** Lines 219-229 print and log nothing when the list file is read: a
    repeated key goes unnoticed. *)
Lemma read_ninecharfile_silent (path : string) (lines : list string) (s : state) :
  path <> "" ->
  isfile (fs s) path = true ->
  readlines (fs s) path = Some lines ->
  read_ninecharfile (Some path) s = Next (Some (nine_char_index ∅ lines)) s.
Proof.
  intros Hne Hfile Hlines. unfold read_ninecharfile, Py.truthy.
  rewrite bool_decide_eq_false_2 by exact Hne. step.
  rewrite Hfile, Hlines. reflexivity.
Qed.

(** ** Where the code leaves its documented behaviour *)

(** Lines 313-318: on a station mismatch the [continue] sits in the branch
    of [force]. Without [force] the error is logged and the iteration goes
    on; with [force] the iteration ends. *)
Lemma check_station_mismatch (cfg : Config.t) (sl : SiteLog.t) (file : string)
  (o : RinexFile.t) (s : state) :
  Py.str_lower (SiteLog.four_character_id sl)
    <> Py.str_lower (RinexFile.station o) ->
  check_station cfg sl file o s
  = if Config.force cfg
    then Continue (record [Log WARNING ("34 - File's station does not correspond to provided sitelog, processing anyway - " +:+ file)] s)
    else Next tt (record [Log ERROR ("33 - File's station does not correspond to provided sitelog - use -f option to force " +:+ file)] s).
Proof.
  intros Hne. unfold check_station.
  rewrite bool_decide_eq_false_2 by exact Hne.
  destruct (Config.force cfg); reflexivity.
Qed.

(** Lines 255-269: the four statuses of a file that cannot be read.
    Status 2 evaluates the unbound name [err_msg]. *)
Lemma load_status (file : string) (s : state) :
  let o := RinexFile_init (fs s) file in
  load file s
  = match RinexFile.status o with
    | 1 => Continue (record [Load file;
                             Log ERROR (Py.ljust 60 "01 - The specified file does not exists" +:+ " - " +:+ file)] s)
    | 2 => Raise (NameError "err_msg") (record [Load file] s)
    | 3 => Continue (record [Load file;
                             Log ERROR (Py.ljust 60 "03 - Invalid or empty Zip file" +:+ " - " +:+ file)] s)
    | 4 => Continue (record [Load file;
                             Log ERROR (Py.ljust 60 "04 - Invalid Compressed Rinex file" +:+ " - " +:+ file)] s)
    | _ => Next o (record [Load file] s)
    end.
Proof.
  unfold load. step.
  destruct (RinexFile.status (RinexFile_init (fs s) file))
    as [|[|[|[|[|n]]]]]; cbn;
    repeat (first [ rewrite bool_decide_eq_true_2 by reflexivity
                  | rewrite bool_decide_eq_false_2 by discriminate ]; cbn);
    rewrite ?record_record; reflexivity.
Qed.

(** Lines 378-381: the compression of the first written file is assigned
    to the variable of the run, and every later write uses it. *)
Lemma write_step_compression (cfg : Config.t) (out : string) (o : RinexFile.t)
  (s : state) :
  exists s' post,
    write_step cfg out o s = Next tt s'
    /\ compression s'
       = (if Py.truthy (compression s) then compression s
          else RinexFile.compression o)
    /\ trace s' = trace s ++ Write o out (compression s') :: post.
Proof.
  unfold write_step.
  destruct (Py.truthy (compression s)) eqn:Hc, (Config.verbose cfg);
    step; rewrite Hc; step; destruct_write; step.
  all: eexists _, _; (split; [reflexivity|]); cbn.
  all: rewrite <- ?app_assoc; cbn; split; reflexivity.
Qed.

(** Lines 374-375: with a marker and no source of modification the name
    [modification_source] is read before anything binds it. *)
Lemma finish_rename_only (cfg : Config.t) (out : string) (o : RinexFile.t)
  (s : state) :
  Py.truthy (Config.marker cfg) = true ->
  Py.truthy (Config.sitelog cfg) = false ->
  kw_truthy (Config.modification_kw cfg) = false ->
  modification_source s = None ->
  exists s',
    finish cfg out o s = Raise (UnboundLocalError "modification_source") s'
    /\ filter (fun e => is_write e = true) (trace s')
       = filter (fun e => is_write e = true) (trace s).
Proof.
  intros Hm Hs Hk Hsrc.
  unfold finish, keyword_step, log_metadata, comment_step.
  rewrite Hm, Hs, Hk.
  destruct (Config.modification_kw cfg) as [kw|], (Config.verbose cfg);
    step; rewrite Hsrc; eexists; (split; [reflexivity|]); cbn;
    rewrite ?filter_app; cbn; rewrite ?app_nil_r; reflexivity.
Qed.

End Pipeline.

(** * Further properties of the loop and of the run *)

Lemma str_app_assoc (a b c : string) : (a +:+ b) +:+ c = a +:+ b +:+ c.
Proof.
  induction a as [|x a IH]; [reflexivity|].
  rewrite !app_cons, IH. reflexivity.
Qed.

Lemma mentions_app (file pre : string) : mentions file (pre +:+ file).
Proof. exists pre. reflexivity. Qed.

Lemma mentions_app2 (file a b : string) : mentions file (a +:+ b +:+ file).
Proof. exists (a +:+ b). symmetry. apply str_app_assoc. Qed.

Section Stages.

Context `{os : OS} `{!RinexAPI} `{!SiteLogAPI}.

Arguments Date.strftime : simpl never.
Arguments Py.ljust : simpl never.
Arguments Py.str_lower : simpl never.
Arguments Py.str_upper : simpl never.
Arguments Py.truthy : simpl never.
Arguments Py.contains : simpl never.
Arguments marker_filename : simpl never.
Arguments long_name : simpl never.
Arguments default_site : simpl never.

Ltac run :=
  unfold bind, when, ret, log, print, emit, continue_, return_, raise,
    get_fs, update_fs, get_compression, set_compression,
    set_modification_source, get_modification_source; cbn.

Ltac case_write :=
  match goal with
  | |- context [write_to_path ?o ?folder ?c ?f] =>
      destruct (write_to_path o folder c f) as [f' outputfile]
  end.

(** ** Rules *)

Lemma hoare_bind {A B} (P : state -> Prop) (m : M A) (k : A -> M B)
  (Q1 : A -> state -> Prop) (Q : B -> state -> Prop) (C R X : state -> Prop) :
  hoare P m Q1 C R X ->
  (forall a, hoare (Q1 a) (k a) Q C R X) ->
  hoare P (bind m k) Q C R X.
Proof.
  intros Hm Hk s Hs. unfold bind. specialize (Hm s Hs).
  destruct (m s) as [a s'|s'|s'|e s']; try exact Hm.
  apply (Hk a s' Hm).
Qed.

Lemma hoare_conseq {A} (P P' : state -> Prop) (m : M A)
  (Q Q' : A -> state -> Prop) (C C' R R' X X' : state -> Prop) :
  hoare P' m Q' C' R' X' ->
  (forall s, P s -> P' s) ->
  (forall a s, Q' a s -> Q a s) ->
  (forall s, C' s -> C s) -> (forall s, R' s -> R s) -> (forall s, X' s -> X s) ->
  hoare P m Q C R X.
Proof.
  intros Hm HP HQ HC HR HX s Hs. specialize (Hm s (HP s Hs)).
  destruct (m s); auto.
Qed.

Lemma last_record (e : event) (s : state) : last (trace (record [e] s)) = Some e.
Proof. cbn. apply last_snoc. Qed.

Section Quiet.

Variables I C R : state -> Prop.
Hypothesis HI : insensitive I.

Lemma st_ret {A} (a : A) : stage I C R (ret a).
Proof. intros s Hs. exact Hs. Qed.

Lemma st_bind {A B} (m : M A) (k : A -> M B) :
  stage I C R m -> (forall a, stage I C R (k a)) -> stage I C R (bind m k).
Proof. intros Hm Hk. eapply hoare_bind; [exact Hm|exact Hk]. Qed.

Lemma st_emit (e : event) : is_write e = false -> stage I C R (emit e).
Proof. intros He s Hs. cbn. apply (ins_emit I HI); assumption. Qed.

Lemma st_log (lvl : level) (msg : string) : stage I C R (log lvl msg).
Proof. apply st_emit. reflexivity. Qed.

Lemma st_print (msg : string) : stage I C R (print msg).
Proof. apply st_emit. reflexivity. Qed.

Lemma st_when (b : bool) (m : M unit) : stage I C R m -> stage I C R (when b m).
Proof. intros Hm. destruct b; [exact Hm|apply st_ret]. Qed.

(** A record, then [continue] *)
Lemma st_skip {A} (lvl : level) (msg : string) :
  (forall s, C (record [Log lvl msg] s)) ->
  stage I C R (bind (log lvl msg) (fun _ => @continue_ _ A)).
Proof.
  intros Hc s Hs. cbn. split; [|apply Hc].
  apply (ins_emit I HI); [reflexivity|exact Hs].
Qed.

(** A print, then [return] *)
Lemma st_abort {A} (msg : string) :
  (forall s, R (record [Print msg] s)) ->
  stage I C R (bind (print msg) (fun _ => @return_ _ A)).
Proof.
  intros Hr s Hs. cbn. split; [|apply Hr].
  apply (ins_emit I HI); [reflexivity|exact Hs].
Qed.

Lemma st_raise {A} (e : exn) : stage I C R (@raise _ A e).
Proof. intros s Hs. exact Hs. Qed.

Lemma st_get_fs : stage I C R get_fs.
Proof. intros s Hs. exact Hs. Qed.

Lemma st_update_fs (f : FS -> FS) : stage I C R (update_fs f).
Proof. intros s Hs. cbn. apply (ins_fs I HI). exact Hs. Qed.

Lemma st_set_modification_source (src : string) :
  stage I C R (set_modification_source src).
Proof. intros s Hs. cbn. apply (ins_source I HI). exact Hs. Qed.

Lemma st_get_modification_source : stage I C R get_modification_source.
Proof.
  intros s Hs. unfold get_modification_source.
  destruct (modification_source s); exact Hs.
Qed.

End Quiet.

Lemma loud_last_record (file : string) (lvl : level) (msg : string) (s : state) :
  lvl <> INFO -> mentions file msg -> loud_last file (record [Log lvl msg] s).
Proof.
  intros Hl Hm. exists lvl, msg.
  split; [apply (last_record (Log lvl msg) s)|]. split; assumption.
Qed.

Lemma error_last_record (msg : string) (s : state) :
  Py.prefix_of "# ERROR" msg = true -> error_last (record [Print msg] s).
Proof. intros Hm. exists msg. split; [apply (last_record (Print msg) s)|exact Hm]. Qed.

Ltac walk HI :=
  repeat
    lazymatch goal with
    | |- stage ?I ?C ?R ?m =>
        first
          [ simple apply (st_ret I C R)
          | simple apply (st_skip I C R HI); intros ?; apply loud_last_record;
            [discriminate | first [apply mentions_app | apply mentions_app2]]
          | simple apply (st_abort I C R HI); intros ?; apply error_last_record;
            reflexivity
          | simple apply (st_bind I C R); [|intros ?]
          | simple apply (st_when I C R)
          | simple apply (st_emit I C R HI); reflexivity
          | simple apply (st_log I C R HI)
          | simple apply (st_print I C R HI)
          | simple apply (st_raise I C R)
          | simple apply (st_get_fs I C R)
          | simple apply (st_update_fs I C R HI)
          | simple apply (st_set_modification_source I C R HI)
          | simple apply (st_get_modification_source I C R)
          | assumption
          | lazymatch m with
            | (if ?b then _ else _) => destruct b; cbv beta iota
            | (match ?x with _ => _ end) => destruct x; cbv beta iota
            end ]
    end.

(** ** The blocks of the loop body that write nothing

    They keep every insensitive property, skip a file only after a warning
    or an error about it, and never return. *)

Section Body.

Variable I : state -> Prop.
Variable file : string.
Hypothesis HI : insensitive I.

Lemma resolve_outputfolder_stage cfg outputfolder :
  stage I (loud_last file) never (resolve_outputfolder cfg outputfolder file).
Proof. unfold resolve_outputfolder. walk HI. Qed.

Lemma load_stage : stage I (loud_last file) never (load file).
Proof. unfold load. walk HI. Qed.

Lemma log_metadata_stage cfg o : stage I (loud_last file) never (log_metadata cfg o).
Proof. unfold log_metadata. walk HI. Qed.

Lemma rename_long_stage cfg d o :
  stage I (loud_last file) never (rename_long cfg d file o).
Proof. unfold rename_long, resolve_site, warn_country. walk HI. Qed.

Lemma sitelog_step_stage cfg sl o :
  stage I (loud_last file) never (sitelog_step cfg sl file o).
Proof. unfold sitelog_step, check_station, resolve_period. walk HI. Qed.

Lemma keyword_step_stage cfg o : stage I (loud_last file) never (keyword_step cfg o).
Proof. unfold keyword_step. walk HI. Qed.

Lemma comment_step_stage cfg o : stage I (loud_last file) never (comment_step cfg o).
Proof. unfold comment_step. walk HI. Qed.

End Body.

Lemma hoare_pure {A} (P : state -> Prop) (phi : Prop) (m : M A)
  (Q : A -> state -> Prop) (C R X : state -> Prop) :
  (phi -> hoare P m Q C R X) -> hoare (fun s => P s /\ phi) m Q C R X.
Proof. intros Hm s [Hs Hphi]. exact (Hm Hphi s Hs). Qed.

(** Line 381 always falls through: one write, with the compression that
    the variable of the run holds after line 379, then at most the record
    of the output file. *)
Lemma write_step_exact (cfg : Config.t) (out : string) (o : RinexFile.t)
  (s : state) :
  exists s' post,
    write_step cfg out o s = Next tt s'
    /\ compression s'
       = (if Py.truthy (compression s) then compression s
          else RinexFile.compression o)
    /\ trace s' = trace s ++ Write o out (compression s') :: post
    /\ Forall (fun e => to_logfile e = false /\ is_write e = false) post.
Proof.
  unfold write_step.
  destruct (Py.truthy (compression s)) eqn:Hc, (Config.verbose cfg);
    run; rewrite Hc; run; case_write; run.
  all: eexists _, _; (split; [reflexivity|]); cbn.
  all: rewrite <- ?app_assoc; cbn; (split; [reflexivity|]).
  all: split; [reflexivity|]; repeat constructor.
Qed.

Section PerFile.

Variables I I' : state -> Prop.
Variable cfg : Config.t.
Variable outputfolder : string.
Variable sl : option SiteLog.t.
Variable d : option (gmap string string).
Variable file : string.
Hypothesis HI : insensitive I.
(** what the write of line 381 does to the property *)
Hypothesis Hwrite :
  forall o s s',
    I s -> write_step cfg (destination cfg outputfolder file) o s = Next tt s' ->
    I' s'.

Lemma resolve_outputfolder_destination :
  hoare I (resolve_outputfolder cfg outputfolder file)
        (fun a s => I s /\ a = destination cfg outputfolder file)
        (fun s => I s /\ loud_last file s) (fun s => I s /\ never s) I.
Proof.
  intros s Hs. unfold resolve_outputfolder, destination.
  destruct (Config.reconstruct cfg) as [r|]; [|split; [exact Hs|reflexivity]].
  destruct (Py.truthy (Some r)); [|split; [exact Hs|reflexivity]].
  destruct (Py.contains r file).
  - run. destruct (isdir (fs s) _); cbn.
    + split; [exact Hs|reflexivity].
    + split; [|reflexivity].
      apply (ins_fs I HI _ (record [Makedirs _] s)).
      apply (ins_emit I HI); [reflexivity|exact Hs].
  - run. split.
    + apply (ins_emit I HI); [reflexivity|exact Hs].
    + apply loud_last_record; [discriminate|apply mentions_app].
Qed.

Lemma prepare_spec :
  hoare I (prepare cfg outputfolder d file)
        (fun a s => I s /\ fst a = destination cfg outputfolder file)
        (fun s => I s /\ loud_last file s) (fun s => I s /\ never s) I.
Proof.
  unfold prepare.
  eapply hoare_bind; [apply (st_log I (loud_last file) never HI)|intros ?].
  eapply hoare_bind;
    [apply (st_when I (loud_last file) never); walk HI|intros ?].
  eapply hoare_bind; [apply resolve_outputfolder_destination|intros out].
  apply hoare_pure. intros ->.
  eapply hoare_bind; [apply (load_stage I file HI)|intros o].
  eapply hoare_bind; [apply (log_metadata_stage I file HI)|intros ?].
  eapply hoare_bind; [apply (rename_long_stage I file HI)|intros o'].
  intros s Hs. split; [exact Hs|reflexivity].
Qed.

Lemma finish_spec (o : RinexFile.t) :
  hoare I (finish cfg (destination cfg outputfolder file) o)
        (fun _ => I') (fun s => I s /\ loud_last file s)
        (fun s => I s /\ never s) I.
Proof.
  unfold finish.
  eapply hoare_bind; [apply (keyword_step_stage I file HI)|intros o1].
  eapply hoare_bind; [apply (log_metadata_stage I file HI)|intros ?].
  eapply hoare_bind; [apply (comment_step_stage I file)|intros o2].
  intros s Hs.
  destruct (write_step_exact cfg (destination cfg outputfolder file) o2 s)
    as (s' & post & Hrun & _).
  rewrite Hrun. apply (Hwrite o2 s s' Hs Hrun).
Qed.

(** One iteration: falling through is after the write, a [continue] is
    right after a warning or an error about the file and before any write,
    there is no [return]. *)
Lemma process_file_spec :
  hoare I (process_file cfg outputfolder sl d file)
        (fun _ => I') (fun s => I s /\ loud_last file s)
        (fun s => I s /\ never s) I.
Proof.
  unfold process_file.
  eapply hoare_bind; [apply prepare_spec|intros [out o]].
  apply hoare_pure. cbn [fst snd]. intros ->.
  eapply hoare_bind; [apply (sitelog_step_stage I file HI)|intros o'].
  apply finish_spec.
Qed.

End PerFile.

(** ** The loop *)

Section Loop.

Variable I : nat -> state -> Prop.
Variable cfg : Config.t.
Variable outputfolder : string.
Variable sl : option SiteLog.t.
Variable d : option (gmap string string).
Hypothesis HI : forall k, insensitive (I k).
Hypothesis Hmono : forall k s, I k s -> I (S k) s.
Hypothesis Hwrite :
  forall k file o s s',
    I k s -> write_step cfg (destination cfg outputfolder file) o s = Next tt s' ->
    I (S k) s'.

Lemma loop_spec (files : list string) :
  forall k,
    hoare (I k) (loop cfg outputfolder sl d files)
          (fun _ => I (k + length files)) never never (I (k + length files)).
Proof.
  induction files as [|file rest IH]; intros k s Hs.
  - cbn. rewrite Nat.add_0_r. exact Hs.
  - pose proof (process_file_spec (I k) (I (S k)) cfg outputfolder sl d file
                  (HI k) (Hwrite k file) s Hs) as Hp.
    cbn [loop length]. rewrite Nat.add_succ_r.
    destruct (process_file cfg outputfolder sl d file s) as [[] s'|s'|s'|e s'].
    + exact (IH (S k) s' Hp).
    + exact (IH (S k) s' (Hmono k s' (proj1 Hp))).
    + destruct Hp as [_ []].
    + clear IH. apply Hmono in Hp.
      replace (S (k + length rest)) with (S k + length rest) by reflexivity.
      generalize (S k) Hp. clear Hp. intros j Hj.
      induction (length rest) as [|n IHn].
      * rewrite Nat.add_0_r. exact Hj.
      * rewrite Nat.add_succ_r. apply Hmono. exact IHn.
Qed.

End Loop.

(** ** The run *)

Section Run.

Variable I : state -> Prop.
Variable cfg : Config.t.
Hypothesis HI : insensitive I.
Hypothesis Hwrite :
  forall file o s s',
    I s ->
    write_step cfg (destination cfg (abspath (Config.outputfolder cfg)) file) o s
    = Next tt s' ->
    I s'.

Lemma check_keywords_stage (kw : kwargs) :
  stage I never error_last (check_keywords kw).
Proof.
  induction kw as [|[k v] kw IH]; cbn [check_keywords]; walk HI.
Qed.

Lemma parse_sitelog_stage (sitelog : option string) :
  stage I never error_last (parse_sitelog sitelog).
Proof. unfold parse_sitelog. walk HI. Qed.

Lemma read_rinexlist_stage (lone : bool) (rinexlist : rinexlist_arg) :
  stage I never error_last (read_rinexlist lone rinexlist).
Proof. unfold read_rinexlist. walk HI. Qed.

Lemma read_ninecharfile_stage (ninecharfile : option string) :
  stage I never error_last (read_ninecharfile ninecharfile).
Proof. unfold read_ninecharfile. walk HI. Qed.

(** Lines 128-201 write nothing, return only after the print of an error,
    and hand over the absolute output folder. *)
Lemma validate_spec :
  hoare I (validate cfg)
        (fun a s => I s /\ fst a = abspath (Config.outputfolder cfg))
        (fun s => I s /\ never s) (fun s => I s /\ error_last s) I.
Proof.
  unfold validate.
  eapply hoare_bind; [apply (st_when I never error_last); walk HI|intros ?].
  eapply hoare_bind; [apply (st_when I never error_last); walk HI|intros ?].
  eapply hoare_bind; [apply (st_when I never error_last); walk HI|intros ?].
  eapply hoare_bind; [apply (st_when I never error_last); walk HI|intros ?].
  eapply hoare_bind.
  { lazymatch goal with
    | |- hoare _ ?m _ _ _ _ =>
        assert (Hst : stage I never error_last m) by walk HI; exact Hst
    end. }
  intros ?.
  eapply hoare_bind; [apply (st_get_fs I never error_last)|intros f].
  eapply hoare_bind; [apply (st_when I never error_last); walk HI|intros ?].
  eapply hoare_bind; [apply (st_emit I never error_last HI); reflexivity|intros ?].
  eapply hoare_bind; [apply parse_sitelog_stage|intros sitelogobj].
  eapply hoare_bind.
  { lazymatch goal with
    | |- hoare _ ?m _ _ _ _ =>
        assert (Hst : stage I never error_last m);
        [destruct (Config.modification_kw cfg) as [kw|];
         [apply st_when; apply check_keywords_stage|apply st_ret]
        |exact Hst]
    end. }
  intros ?. intros s Hs. split; [exact Hs|reflexivity].
Qed.

Lemma for_files_spec (sl : option SiteLog.t) (d : option (gmap string string))
  (items : file_items) :
  hoare I (for_files cfg (abspath (Config.outputfolder cfg)) sl d items)
        (fun _ => I) (fun s => I s /\ never s) (fun s => I s /\ error_last s) I.
Proof.
  destruct items as [files|files]; [|intros s Hs; exact Hs].
  cbn [for_files].
  eapply hoare_conseq;
    [apply (loop_spec (fun _ => I) cfg (abspath (Config.outputfolder cfg)) sl d
              (fun _ => HI) (fun _ s Hs => Hs) (fun _ => Hwrite) files 0)
    |auto..].
  - intros s [].
  - intros s [].
Qed.

(** The whole body: it falls through only after the handlers are cleared,
    and returns early only after the print of an error. *)
Lemma body_spec :
  hoare I (body cfg)
        (fun _ s => I s /\ last (trace s) = Some ClearHandlers)
        (fun s => I s /\ never s) (fun s => I s /\ error_last s) I.
Proof.
  unfold body.
  eapply hoare_bind; [apply validate_spec|intros [out sitelogobj]].
  apply hoare_pure. cbn [fst snd]. intros ->.
  eapply hoare_bind; [apply read_rinexlist_stage|intros items].
  eapply hoare_bind; [apply read_ninecharfile_stage|intros d].
  eapply hoare_bind; [apply for_files_spec|intros ?].
  intros s Hs. cbn. split.
  - apply (ins_emit I HI); [reflexivity|exact Hs].
  - apply last_snoc.
Qed.

(** A property that holds of the initial state holds of the final state. *)
Lemma run_invariant (fs0 : FS) :
  I (mk_state fs0 [] (Config.compression cfg) None) ->
  I (final (rinexmod cfg fs0)).
Proof.
  intros H0'. unfold rinexmod.
  pose proof (body_spec _ H0') as Hb.
  destruct (body cfg _) as [a s|s|s|e s]; cbn; tauto.
Qed.

End Run.

End Stages.

(** ** What the loop and the run keep *)

Section Kept.

Context `{os : OS} `{!RinexAPI} `{!SiteLogAPI}.

Lemma count_writes_app (t1 t2 : list event) :
  count_writes (t1 ++ t2) = count_writes t1 + count_writes t2.
Proof. unfold count_writes. rewrite filter_app, length_app. reflexivity. Qed.

Lemma count_writes_quiet (e : event) :
  is_write e = false -> count_writes [e] = 0.
Proof. destruct e; cbn; intros He; try reflexivity; discriminate. Qed.

Lemma count_writes_write (o : RinexFile.t) (folder : string) (c : option string) :
  count_writes [Write o folder c] = 1.
Proof. reflexivity. Qed.

Lemma insensitive_count (n : nat) :
  insensitive (fun s => count_writes (trace s) <= n).
Proof.
  split; [|intros; assumption..].
  intros e s He Hs. unfold record. cbn [trace].
  rewrite count_writes_app, (count_writes_quiet e He). lia.
Qed.

Lemma insensitive_appended (t0 : list event) (c : option string) :
  insensitive (fun s => compression s = c
                        /\ exists evs, trace s = t0 ++ evs
                                       /\ Forall (fun e => is_write e = false) evs).
Proof.
  split; cbn; try (intros; assumption).
  intros e s He [Hc (evs & Ht & Hq)]. split; [exact Hc|].
  exists (evs ++ [e]). rewrite Ht, app_assoc. split; [reflexivity|].
  apply Forall_app. split; [exact Hq|]. repeat constructor. exact He.
Qed.

Lemma insensitive_written_with (c : option string) :
  insensitive (fun s => compression s = c /\ Forall (written_with c) (trace s)).
Proof.
  split; cbn; try (intros; assumption).
  intros e s He [Hc Hw]. split; [exact Hc|].
  apply Forall_app. split; [exact Hw|]. repeat constructor.
  destruct e; cbn in *; try exact Logic.I. discriminate.
Qed.

Lemma insensitive_written_to (folder : string) :
  insensitive (fun s => Forall (written_to folder) (trace s)).
Proof.
  split; cbn; try (intros; assumption).
  intros e s He Hw. apply Forall_app. split; [exact Hw|]. repeat constructor.
  destruct e; cbn in *; try exact Logic.I. discriminate.
Qed.

(** X1. A file that the loop passes over: the last event is a warning or an
    error that ends with the path of the file, nothing was written for it
    and the compression of the run is as before. *)
Theorem skip_is_logged (cfg : Config.t) (outputfolder : string)
  (sl : option SiteLog.t) (d : option (gmap string string)) (file : string)
  (s s' : state) :
  process_file cfg outputfolder sl d file s = Continue s' ->
  (exists lvl msg,
      last (trace s') = Some (Log lvl msg) /\ lvl <> INFO /\ mentions file msg)
  /\ (exists evs, trace s' = trace s ++ evs
                  /\ Forall (fun e => is_write e = false) evs)
  /\ compression s' = compression s.
Proof.
  intros Hrun.
  pose proof (process_file_spec _ (fun _ => True) cfg outputfolder sl d file
                (insensitive_appended (trace s) (compression s))
                (fun _ _ _ _ _ => Logic.I) s) as Hp.
  rewrite Hrun in Hp. destruct Hp as [[Hc Happ] Hloud].
  - split; [reflexivity|]. exists []. rewrite app_nil_r. split; constructor.
  - split; [exact Hloud|]. split; [exact Happ|exact Hc].
Qed.

(** X2. A file that the loop processes to the end is written exactly once,
    into the output folder, or with [reconstruct] into the folder of the
    file relative to the prefix, below the output folder. *)
Theorem processed_file_written_once (cfg : Config.t) (outputfolder : string)
  (sl : option SiteLog.t) (d : option (gmap string string)) (file : string)
  (s s' : state) :
  process_file cfg outputfolder sl d file s = Next tt s' ->
  exists pre o c post,
    trace s' = trace s ++ pre ++ Write o (destination cfg outputfolder file) c :: post
    /\ Forall (fun e => is_write e = false) pre
    /\ Forall (fun e => is_write e = false) post.
Proof.
  intros Hrun.
  set (I' := fun st : state =>
               exists pre o c post,
                 trace st = trace s ++ pre
                            ++ Write o (destination cfg outputfolder file) c :: post
                 /\ Forall (fun e => is_write e = false) pre
                 /\ Forall (fun e => is_write e = false) post).
  assert (Hwrite : forall o st st',
             (compression st = compression s
              /\ exists evs, trace st = trace s ++ evs
                             /\ Forall (fun e => is_write e = false) evs) ->
             write_step cfg (destination cfg outputfolder file) o st = Next tt st' ->
             I' st').
  { intros o st st' [_ (pre & Ht & Hq)] Hw.
    destruct (write_step_exact cfg (destination cfg outputfolder file) o st)
      as (st2 & post & Hw2 & _ & Ht2 & Hpost).
    rewrite Hw in Hw2. injection Hw2 as <-.
    exists pre, o, (compression st'), post.
    rewrite Ht2, Ht, <- app_assoc. split; [reflexivity|].
    split; [exact Hq|].
    eapply Forall_impl; [exact Hpost|]. intros e [_ He]. exact He. }
  pose proof (process_file_spec _ I' cfg outputfolder sl d file
                (insensitive_appended (trace s) (compression s)) Hwrite s) as Hp.
  rewrite Hrun in Hp. apply Hp.
  split; [reflexivity|]. exists []. rewrite app_nil_r. split; constructor.
Qed.

(** X3. The loop ends by exhausting the list or by an exception: no file makes
    it return or leaves a [continue] pending; and it writes at most one
    file per path of the list. *)
Theorem loop_outcome (cfg : Config.t) (outputfolder : string)
  (sl : option SiteLog.t) (d : option (gmap string string))
  (files : list string) (s : state) :
  ((exists s', loop cfg outputfolder sl d files s = Next tt s')
   \/ (exists e s', loop cfg outputfolder sl d files s = Raise e s'))
  /\ count_writes (trace (after (loop cfg outputfolder sl d files s)))
     <= count_writes (trace s) + length files.
Proof.
  set (I := fun (k : nat) (st : state) =>
              count_writes (trace st) <= count_writes (trace s) + k).
  assert (Hmono : forall k st, I k st -> I (S k) st) by (unfold I; intros; lia).
  assert (Hwrite : forall k file o st st',
             I k st ->
             write_step cfg (destination cfg outputfolder file) o st = Next tt st' ->
             I (S k) st').
  { unfold I. intros k file o st st' Hst Hw.
    destruct (write_step_exact cfg (destination cfg outputfolder file) o st)
      as (st2 & post & Hw2 & _ & Ht2 & Hpost).
    rewrite Hw in Hw2. injection Hw2 as <-.
    assert (Hz : count_writes post = 0).
    { unfold count_writes. clear -Hpost.
      induction Hpost as [|e l [_ He] _ IH]; [reflexivity|].
      rewrite filter_cons_False by (rewrite He; discriminate). exact IH. }
    rewrite Ht2, count_writes_app.
    change (Write o (destination cfg outputfolder file) (compression st') :: post)
      with ([Write o (destination cfg outputfolder file) (compression st')] ++ post).
    rewrite count_writes_app, Hz, count_writes_write. lia. }
  pose proof (loop_spec I cfg outputfolder sl d
                (fun k => insensitive_count _) Hmono Hwrite files 0 s) as Hl.
  assert (H0' : I 0 s) by (unfold I; lia). specialize (Hl H0').
  unfold I in Hl. cbn [Nat.add] in Hl.
  destruct (loop cfg outputfolder sl d files s) as [[] s'|s'|s'|e s'];
    cbn [after]; try (destruct Hl; fail).
  - split; [left; eauto|exact Hl].
  - split; [right; eauto|exact Hl].
Qed.

(** X4. With a compression asked for, every file that the run writes is
    written with it. *)
Theorem explicit_compression_wins (cfg : Config.t) (fs0 : FS) :
  Py.truthy (Config.compression cfg) = true ->
  Forall (written_with (Config.compression cfg)) (trace (final (rinexmod cfg fs0))).
Proof.
  intros Hc.
  apply (run_invariant
           (fun s => compression s = Config.compression cfg
                     /\ Forall (written_with (Config.compression cfg)) (trace s))
           cfg (insensitive_written_with _)).
  - intros file o s s' [Hs Hw] Hrun.
    destruct (write_step_exact cfg
                (destination cfg (abspath (Config.outputfolder cfg)) file) o s)
      as (s2 & post & Hrun2 & Hc2 & Ht2 & Hpost).
    rewrite Hrun in Hrun2. injection Hrun2 as <-.
    rewrite Hs, Hc in Hc2. split; [exact Hc2|].
    rewrite Ht2. apply Forall_app. split; [exact Hw|].
    constructor; [exact Hc2|].
    eapply Forall_impl; [exact Hpost|]. intros e [_ He].
    destruct e; cbn in *; try exact Logic.I. discriminate.
  - split; [reflexivity|constructor].
Qed.

(** X5. Without [reconstruct], every file that the run writes is written into
    the absolute output folder. *)
Theorem writes_go_to_output_folder (cfg : Config.t) (fs0 : FS) :
  Py.truthy (Config.reconstruct cfg) = false ->
  Forall (written_to (abspath (Config.outputfolder cfg)))
         (trace (final (rinexmod cfg fs0))).
Proof.
  intros Hr.
  assert (Hdest : forall file,
             destination cfg (abspath (Config.outputfolder cfg)) file
             = abspath (Config.outputfolder cfg)).
  { intros file. unfold destination. rewrite Hr.
    destruct (Config.reconstruct cfg); reflexivity. }
  apply (run_invariant
           (fun s => Forall (written_to (abspath (Config.outputfolder cfg))) (trace s))
           cfg (insensitive_written_to _)).
  - intros file o s s' Hw Hrun. rewrite Hdest in Hrun.
    destruct (write_step_exact cfg (abspath (Config.outputfolder cfg)) o s)
      as (s2 & post & Hrun2 & _ & Ht2 & Hpost).
    rewrite Hrun in Hrun2. injection Hrun2 as <-.
    rewrite Ht2. apply Forall_app. split; [exact Hw|].
    constructor; [reflexivity|].
    eapply Forall_impl; [exact Hpost|]. intros e [_ He].
    destruct e; cbn in *; try exact Logic.I. discriminate.
  - constructor.
Qed.

(** X6. A run that returns has either gone through the whole list, and its
    last event is the clearing of the handlers, or has stopped on the print
    of an error. *)
Theorem run_returns_cleared_or_error (cfg : Config.t) (fs0 : FS) (s : state) :
  rinexmod cfg fs0 = Returned s ->
  last (trace s) = Some ClearHandlers
  \/ exists msg, last (trace s) = Some (Print msg)
                 /\ Py.prefix_of "# ERROR" msg = true.
Proof.
  unfold rinexmod.
  pose proof (body_spec (fun _ => True) cfg
                (mk_insensitive _ (fun _ _ _ _ => Logic.I) (fun _ _ _ => Logic.I)
                                (fun _ _ _ => Logic.I))
                (fun _ _ _ _ _ _ => Logic.I)
                (mk_state fs0 [] (Config.compression cfg) None) Logic.I) as Hb.
  destruct (body cfg _) as [a s1|s1|s1|e s1]; intros Heq;
    try discriminate; injection Heq as <-.
  - left. apply Hb.
  - destruct Hb as [_ []].
  - right. apply Hb.
Qed.

End Kept.

(** ** Refused configurations and files *)

Section Edges.

Context `{os : OS} `{!RinexAPI} `{!SiteLogAPI}.

Arguments Date.strftime : simpl never.
Arguments Py.ljust : simpl never.
Arguments Py.str_lower : simpl never.
Arguments Py.str_upper : simpl never.
Arguments Py.truthy : simpl never.
Arguments Py.contains : simpl never.
Arguments marker_filename : simpl never.
Arguments long_name : simpl never.
Arguments default_site : simpl never.

Ltac run :=
  unfold bind, when, ret, log, print, emit, continue_, return_, raise,
    get_fs, update_fs, get_compression, set_compression,
    set_modification_source, get_modification_source; cbn.

(** X7. Both sources of modification, or nothing to do: the run prints one
    error and returns; no folder is created, no log is opened, no file is
    touched. *)
Theorem refused_configurations (cfg : Config.t) (fs0 : FS) :
  (Py.truthy (Config.sitelog cfg) = true ->
   kw_truthy (Config.modification_kw cfg) = true ->
   rinexmod cfg fs0
   = Returned (mk_state fs0
       [Print "# ERROR : If you get metadata from sitelog, don't provide arguments for modification (-k, --modification_kw option) !"]
       (Config.compression cfg) None))
  /\ (Py.truthy (Config.sitelog cfg) = false ->
      kw_truthy (Config.modification_kw cfg) = false ->
      Py.truthy (Config.marker cfg) = false ->
      Config.name cfg = false ->
      rinexmod cfg fs0
      = Returned (mk_state fs0
          [Print "# ERROR : No action asked, provide at least one of the following args : --sitelog, --modification_kw, --marker, --name."]
          (Config.compression cfg) None)).
Proof.
  split.
  - intros Hs Hk. unfold rinexmod, body, validate. rewrite Hs, Hk. reflexivity.
  - intros Hs Hk Hm Hn. unfold rinexmod, body, validate.
    rewrite Hs, Hk, Hm, Hn. reflexivity.
Qed.

(** X8. A list file, or a lone file, that does not exist: the run returns on
    the print of an error before the output folder is created and before
    the log is opened; it has only printed. *)
Theorem missing_input_returns_early (cfg : Config.t) (path : string) (fs0 : FS) :
  Config.rinexlist cfg = ListFile path ->
  isfile fs0 path = false ->
  exists s,
    rinexmod cfg fs0 = Returned s
    /\ fs s = fs0
    /\ Forall (fun e => exists msg, e = Print msg) (trace s)
    /\ error_last s.
Proof.
  intros Hl Hf. unfold rinexmod, body, validate. rewrite Hl.
  destruct (Py.truthy (Config.sitelog cfg)),
    (kw_truthy (Config.modification_kw cfg)),
    (Py.truthy (Config.marker cfg)), (Config.name cfg),
    (Config.force cfg), (Config.ignore cfg); run; rewrite ?Hf; run.
  all: eexists; (split; [reflexivity|]); (split; [reflexivity|]); cbn.
  all: split; [repeat (constructor; [eexists; reflexivity|]); constructor|].
  all: eexists; split; [reflexivity|reflexivity].
Qed.

(** X9. A station log that cannot be parsed: the run returns on the print of
    an error without touching a file, after the output folder was created
    and the log opened. *)
Theorem unparsable_sitelog_returns (cfg : Config.t) (path : string) (fs0 : FS) :
  Config.sitelog cfg = Some path ->
  path <> "" ->
  kw_truthy (Config.modification_kw cfg) = false ->
  input_exists cfg fs0 = true ->
  SiteLog.status (SiteLog_init (made_outputfolder cfg fs0) path) <> 0 ->
  exists s,
    rinexmod cfg fs0 = Returned s
    /\ fs s = made_outputfolder cfg fs0
    /\ last (trace s)
       = Some (Print ("# ERROR : The sitelog is not parsable : " +:+ path))
    /\ Forall (fun e => is_file_event e = false) (trace s)
    /\ OpenLog (path_join (abspath (Config.outputfolder cfg))
                          (Date.strftime "%Y%m%d%H%M%S" now +:+ "_" +:+ "rinexmod.log"))
       ∈ trace s.
Proof.
  intros Hs Hne Hk Hin Hst.
  assert (Ht : Py.truthy (Some path) = true).
  { unfold Py.truthy. rewrite bool_decide_eq_false_2 by exact Hne. reflexivity. }
  unfold rinexmod, body, validate, parse_sitelog, input_exists, made_outputfolder in *.
  rewrite Hs, Hk, Ht.
  destruct (Config.force cfg), (Config.ignore cfg),
    (Config.rinexlist cfg) as [p|files]; run; rewrite ?Hin; run;
    destruct (isdir fs0 (abspath (Config.outputfolder cfg))); run;
    rewrite ?Ht; run;
    rewrite (bool_decide_eq_false_2 _ Hst); run.
  all: eexists; (split; [reflexivity|]); (split; [reflexivity|]); cbn.
  all: split; [reflexivity|].
  all: split; [repeat constructor|].
  all: repeat first [apply list_elem_of_here | apply list_elem_of_further].
Qed.

(** X10. With [reconstruct], a file whose path does not contain the prefix is
    passed over with error 31, before it is loaded, and the loop goes on
    with the files that follow. *)
Theorem unreconstructable_skipped (cfg : Config.t) (outputfolder : string)
  (sl : option SiteLog.t) (d : option (gmap string string))
  (reconstruct file : string) (rest : list string) (s : state) :
  abspath (dirname file) <> outputfolder ->
  Config.reconstruct cfg = Some reconstruct ->
  reconstruct <> "" ->
  Py.contains reconstruct file = false ->
  process_file cfg outputfolder sl d file s
  = Continue
      (record [Log INFO ("# File : " +:+ file);
               Log ERROR ("31 - The subfolder can not be reconstructed for file - "
                          +:+ file)] s)
  /\ loop cfg outputfolder sl d (file :: rest) s
     = loop cfg outputfolder sl d rest
         (record [Log INFO ("# File : " +:+ file);
                  Log ERROR ("31 - The subfolder can not be reconstructed for file - "
                             +:+ file)] s).
Proof.
  intros Hdir Hr Hne Hc.
  assert (Hp : process_file cfg outputfolder sl d file s
               = Continue
                   (record [Log INFO ("# File : " +:+ file);
                            Log ERROR ("31 - The subfolder can not be reconstructed for file - "
                                       +:+ file)] s)).
  { unfold process_file, prepare, resolve_outputfolder. rewrite Hr.
    assert (Ht : Py.truthy (Some reconstruct) = true).
    { unfold Py.truthy. rewrite bool_decide_eq_false_2 by exact Hne. reflexivity. }
    rewrite Ht, Hc. run.
    rewrite bool_decide_eq_false_2 by exact Hdir. cbn.
    unfold record. cbn. rewrite <- app_assoc. reflexivity. }
  split; [exact Hp|]. cbn [loop]. rewrite Hp. reflexivity.
Qed.

(** X11. Without a station log, [force] and [ignore] have no effect on the
    loop. *)
Theorem flags_inert_without_sitelog (cfg : Config.t) (force ignore : bool)
  (outputfolder : string) (d : option (gmap string string))
  (files : list string) (s : state) :
  loop (with_flags force ignore cfg) outputfolder None d files s
  = loop cfg outputfolder None d files s.
Proof.
  revert s. induction files as [|file rest IH]; intros s; [reflexivity|].
  cbn [loop].
  change (process_file (with_flags force ignore cfg) outputfolder None d file s)
    with (process_file cfg outputfolder None d file s).
  destruct (process_file cfg outputfolder None d file s); try reflexivity;
    apply IH.
Qed.

End Edges.

(** ** The marker and the site of the long name *)

Lemma upper_lower_char (c : ascii) :
  Py.upper_char (Py.lower_char c) = Py.upper_char c.
Proof. destruct c as [[] [] [] [] [] [] [] []]; reflexivity. Qed.

Lemma lower_lower_char (c : ascii) :
  Py.lower_char (Py.lower_char c) = Py.lower_char c.
Proof. destruct c as [[] [] [] [] [] [] [] []]; reflexivity. Qed.

Lemma str_upper_lower (s : string) :
  Py.str_upper (Py.str_lower s) = Py.str_upper s.
Proof.
  unfold Py.str_upper, Py.str_lower.
  induction s as [|c s IH]; [reflexivity|].
  cbn. rewrite upper_lower_char, IH. reflexivity.
Qed.

Lemma str_lower_lower (s : string) :
  Py.str_lower (Py.str_lower s) = Py.str_lower s.
Proof.
  unfold Py.str_lower.
  induction s as [|c s IH]; [reflexivity|].
  cbn. rewrite lower_lower_char, IH. reflexivity.
Qed.

Lemma take_str_map (f : ascii -> ascii) (n : nat) (s : string) :
  Py.take n (Py.str_map f s) = Py.str_map f (Py.take n s).
Proof.
  revert s. induction n as [|n IH]; intros [|c s]; try reflexivity.
  cbn. rewrite IH. reflexivity.
Qed.

Lemma take_app_ge (n : nat) (a b : string) :
  n <= String.length a -> Py.take n (a +:+ b) = Py.take n a.
Proof.
  revert a. induction n as [|n IH]; intros [|c a] Hn; cbn in Hn; try lia.
  - destruct b; reflexivity.
  - reflexivity.
  - rewrite app_cons. cbn. rewrite IH by lia. reflexivity.
Qed.

Lemma take_marker_filename (marker filename : string) :
  4 <= String.length marker ->
  Py.take 4 (marker_filename marker filename) = Py.str_lower (Py.take 4 marker).
Proof.
  intros Hlen. unfold marker_filename.
  rewrite take_app_ge by (unfold Py.str_lower; rewrite str_length_map; exact Hlen).
  apply take_str_map.
Qed.

Section Site.

Context `{os : OS} `{!RinexAPI} `{!SiteLogAPI}.

(** X12. After a marker of ASCII characters, four at least, has renamed the
    file, the marker alone decides the site of the long name: the index is
    looked up under its first four characters in lower case, and without
    an entry the site is these four characters in upper case followed by
    [00XXX], with warning 32. *)
Theorem marker_decides_site (cfg : Config.t) (marker : string)
  (d : option (gmap string string)) (file : string) (o : RinexFile.t)
  (s : state) :
  Config.marker cfg = Some marker ->
  is_ascii marker = true ->
  4 <= String.length marker ->
  resolve_site d file (rename_marker cfg o) s
  = match d with
    | Some dict =>
        match dict !! Py.str_lower (Py.take 4 marker) with
        | Some site => Next site s
        | None =>
            Next (Py.str_upper (Py.take 4 marker) +:+ "00XXX")
                 (record [Log WARNING ("32 - Station's country not retrevied, will not be properly renamed - " +:+ file)] s)
        end
    | None =>
        Next (Py.str_upper (Py.take 4 marker) +:+ "00XXX")
             (record [Log WARNING ("32 - Station's country not retrevied, will not be properly renamed - " +:+ file)] s)
    end.
Proof.
  intros Hm _ Hlen.
  assert (Hne : marker <> "") by (intros ->; cbn in Hlen; lia).
  assert (Hname : RinexFile.filename (rename_marker cfg o)
                  = marker_filename marker (RinexFile.filename o)).
  { unfold rename_marker. rewrite Hm. unfold Py.truthy.
    rewrite bool_decide_eq_false_2 by exact Hne. reflexivity. }
  unfold resolve_site, warn_country, default_site. rewrite Hname.
  rewrite take_marker_filename by exact Hlen.
  rewrite str_lower_lower, str_upper_lower.
  destruct d as [dict|]; [destruct (dict !! _)|]; reflexivity.
Qed.

End Site.

(** ** The keywords of the command line *)

Lemma split_clean (sep : ascii) (s : string) :
  count_char sep s = 0 -> split sep s = [s].
Proof.
  induction s as [|c s IH]; [reflexivity|]. cbn.
  destruct (decide (c = sep)); [discriminate|]. cbn. intros Hs.
  rewrite IH by exact Hs. reflexivity.
Qed.

Lemma split_app_sep (sep : ascii) (a b : string) :
  count_char sep a = 0 ->
  split sep (a +:+ String sep b) = a :: split sep b.
Proof.
  induction a as [|c a IH]; cbn [count_char].
  - intros _. change (EmptyString +:+ String sep b) with (String sep b).
    cbn [split]. rewrite decide_True by reflexivity. reflexivity.
  - destruct (decide (c = sep)) as [Heq|Hne]; [discriminate|]. cbn. intros Ha.
    rewrite app_cons. cbn [split]. rewrite decide_False by exact Hne.
    rewrite IH by exact Ha. reflexivity.
Qed.

Lemma split_length (sep : ascii) (s : string) :
  length (split sep s) = S (count_char sep s).
Proof.
  induction s as [|c s IH]; [reflexivity|]. cbn.
  destruct (decide (c = sep)); cbn.
  - rewrite IH. reflexivity.
  - destruct (split sep s) as [|p ps]; cbn in *; [discriminate|exact IH].
Qed.

Lemma split_keyword_token (k v : string) :
  count_char "=" k = 0 -> count_char "=" v = 0 ->
  split "=" (keyword_token (k, v)) = [k; v].
Proof.
  intros Hk Hv. unfold keyword_token. cbn [fst snd].
  change (k +:+ "=" +:+ v) with (k +:+ String "=" v).
  rewrite split_app_sep by exact Hk. rewrite split_clean by exact Hv.
  reflexivity.
Qed.

Lemma kw_get_dict_set_eq (k v : string) (d : kwargs) :
  kw_get k (dict_set k v d) = Some v.
Proof.
  induction d as [|[k' v'] d IH]; cbn.
  - rewrite decide_True by reflexivity. reflexivity.
  - destruct (decide (k' = k)) as [->|Hne]; cbn.
    + rewrite decide_True by reflexivity. reflexivity.
    + rewrite decide_False by exact Hne. exact IH.
Qed.

Lemma kw_get_dict_set_ne (k k0 v : string) (d : kwargs) :
  k0 <> k -> kw_get k (dict_set k0 v d) = kw_get k d.
Proof.
  intros Hne. induction d as [|[k' v'] d IH]; cbn.
  - rewrite decide_False by exact Hne. reflexivity.
  - destruct (decide (k' = k0)) as [->|Hne']; cbn.
    + rewrite !decide_False by exact Hne. reflexivity.
    + destruct (decide (k' = k)); [reflexivity|exact IH].
Qed.

Lemma dict_set_fresh (k v : string) (d : kwargs) :
  k ∉ d.*1 -> dict_set k v d = d ++ [(k, v)].
Proof.
  induction d as [|[k' v'] d IH]; cbn; intros Hk; [reflexivity|].
  apply not_elem_of_cons in Hk as [Hne Hk].
  rewrite decide_False by (intros ->; contradiction).
  rewrite IH by exact Hk. reflexivity.
Qed.

Lemma ParseKwargs_loop_fresh (pairs acc : kwargs) :
  NoDup (acc.*1 ++ pairs.*1) ->
  (forall k v, (k, v) ∈ pairs -> count_char "=" k = 0 /\ count_char "=" v = 0) ->
  ParseKwargs_loop acc (map keyword_token pairs) = Parsed (acc ++ pairs).
Proof.
  revert acc. induction pairs as [|[k v] pairs IH]; intros acc Hnd Hclean; cbn.
  - rewrite app_nil_r. reflexivity.
  - destruct (Hclean k v) as [Hk Hv]; [left|].
    rewrite (split_keyword_token k v Hk Hv).
    apply NoDup_app in Hnd as (Hacc & Hdisj & Hpairs).
    rewrite dict_set_fresh by (intros Hin; apply (Hdisj k Hin); left).
    rewrite IH.
    + rewrite <- app_assoc. reflexivity.
    + rewrite fmap_app. cbn. rewrite <- app_assoc. cbn.
      apply NoDup_app. split; [exact Hacc|]. split; [exact Hdisj|exact Hpairs].
    + intros k' v' Hin. apply Hclean. right. exact Hin.
Qed.

(** X13. Pairs with distinct keys and without [=] in the keys and the values,
    typed as [key=value], are parsed back into the same dictionary, in the
    same order. *)
Theorem ParseKwargs_round_trip (pairs : kwargs) :
  NoDup pairs.*1 ->
  (forall k v, (k, v) ∈ pairs -> count_char "=" k = 0 /\ count_char "=" v = 0) ->
  ParseKwargs (map keyword_token pairs) = Parsed pairs.
Proof.
  intros Hnd Hclean. unfold ParseKwargs.
  rewrite (ParseKwargs_loop_fresh pairs []); [reflexivity|exact Hnd|exact Hclean].
Qed.

Lemma ParseKwargs_loop_bad (values : list string) (value : string) :
  value ∈ values -> count_char "=" value <> 1 ->
  forall acc, ParseKwargs_loop acc values = ValueError.
Proof.
  induction values as [|v0 values IH]; intros Hin Hbad acc.
  - inversion Hin.
  - cbn. pose proof (split_length "=" v0) as Hlen.
    destruct (split "=" v0) as [|a [|b [|c l]]]; try reflexivity.
    apply elem_of_cons in Hin as [->|Hin].
    + cbn in Hlen. exfalso. apply Hbad. lia.
    + apply IH; assumption.
Qed.

(** X14. A value without [=], or with more than one, ends the parsing of the
    command line with [ValueError], wherever it stands among the values. *)
Theorem ParseKwargs_value_error (values : list string) (value : string) :
  value ∈ values -> count_char "=" value <> 1 ->
  ParseKwargs values = ValueError.
Proof. intros Hin Hbad. apply (ParseKwargs_loop_bad values value Hin Hbad). Qed.

Lemma ParseKwargs_loop_other (values : list string) (k : string) :
  (forall t, t ∈ values -> head (split "=" t) <> Some k) ->
  forall acc d, ParseKwargs_loop acc values = Parsed d -> kw_get k d = kw_get k acc.
Proof.
  induction values as [|v0 values IH]; intros Hk acc d; cbn.
  - intros Heq. injection Heq as <-. reflexivity.
  - pose proof (Hk v0 ltac:(left)) as Hv0.
    destruct (split "=" v0) as [|a [|b [|c l]]]; try discriminate.
    intros Hrun. rewrite (IH ltac:(intros t Ht; apply Hk; right; exact Ht) _ _ Hrun).
    apply kw_get_dict_set_ne. intros ->. apply Hv0. reflexivity.
Qed.

(** X15. When a key is given several times, the dictionary holds the value
    given last. *)
Theorem ParseKwargs_last_wins (pre post : list string) (k v : string)
  (d : kwargs) :
  count_char "=" k = 0 -> count_char "=" v = 0 ->
  (forall t, t ∈ post -> head (split "=" t) <> Some k) ->
  ParseKwargs (pre ++ keyword_token (k, v) :: post) = Parsed d ->
  kw_get k d = Some v.
Proof.
  intros Hk Hv Hpost. unfold ParseKwargs. generalize (@nil (string * string)).
  induction pre as [|t pre IH]; intros acc; cbn.
  - rewrite (split_keyword_token k v Hk Hv). intros Hrun.
    rewrite (ParseKwargs_loop_other post k Hpost _ _ Hrun).
    apply kw_get_dict_set_eq.
  - destruct (split "=" t) as [|a [|b [|c l]]]; try discriminate. apply IH.
Qed.

(** ** The two handlers of the logger *)

(** X16. After [loggersVerbose], a record of any level is emitted by the
    handlers that the root logger already had, as their own levels decide,
    then by the prompt handler when it is [INFO] or above and by the file
    handler when it is [WARNING] or above; a [DEBUG] record reaches neither
    of the two. For the records of the run, the file handler emits exactly
    those that [to_logfile] selects. *)
Theorem loggersVerbose_streams (logfile asctime : string) (root : Logging.logger)
  (msg : string) :
  (forall l : Logging.level,
      Logging.handle (Logging.loggersVerbose logfile root) asctime l msg
      = Logging.deliver (Logging.handlers root) asctime l msg
        ++ match l with
           | Logging.DEBUG => []
           | Logging.INFO =>
               [(Prompt, asctime +:+ " - " +:+ Py.ljust 7 (Logging.levelname l)
                         +:+ " - " +:+ msg)]
           | _ =>
               [(Prompt, asctime +:+ " - " +:+ Py.ljust 7 (Logging.levelname l)
                         +:+ " - " +:+ msg);
                (LogFile logfile, asctime +:+ " - " +:+ Logging.levelname l
                                  +:+ " - " +:+ msg)]
           end)
  /\ (forall l : level,
         Logging.handle (Logging.loggersVerbose logfile root) asctime
                        (logging_level l) msg
         = Logging.deliver (Logging.handlers root) asctime (logging_level l) msg
           ++ (Prompt, asctime +:+ " - "
                       +:+ Py.ljust 7 (Logging.levelname (logging_level l))
                       +:+ " - " +:+ msg)
              :: (if to_logfile (Log l msg)
                  then [(LogFile logfile,
                         asctime +:+ " - " +:+ Logging.levelname (logging_level l)
                         +:+ " - " +:+ msg)]
                  else [])).
Proof.
  assert (Hall : forall l : Logging.level,
             Logging.handle (Logging.loggersVerbose logfile root) asctime l msg
             = Logging.deliver (Logging.handlers root) asctime l msg
               ++ Logging.deliver
                    [Logging.mk_handler Prompt 20 Logging.promptformatter;
                     Logging.mk_handler (LogFile logfile) 30 Logging.fileformatter]
                    asctime l msg).
  { intros l. unfold Logging.handle, Logging.loggersVerbose, Logging.deliver.
    cbn [Logging.logger_level Logging.handlers].
    rewrite omap_app. destruct l; reflexivity. }
  split; intros l; rewrite Hall; f_equal; destruct l; reflexivity.
Qed.
(** * The properties on the concrete installation *)

#[local] Existing Instance Demo.os.
#[local] Existing Instance Demo.rinex.
#[local] Existing Instance Demo.sitelog.

Example strftime_daily_2021 :
  Date.strftime "%Y%j0000" (mk_datetime 2021 3 15 13 45 0) = "20210740000".
Proof. vm_compute. reflexivity. Qed.

Example strftime_subdaily_2021 :
  Date.strftime "%Y%j%H%M" (mk_datetime 2021 3 15 13 45 0) = "20210741345".
Proof. vm_compute. reflexivity. Qed.

Example strftime_leap_year :
  Date.strftime "%Y%j%H%M" (mk_datetime 2020 12 31 7 5 0) = "20203660705".
Proof. vm_compute. reflexivity. Qed.

Example strip_line : Py.strip ("  abcd00FRA " +:+ Py.nl) = "abcd00FRA".
Proof. vm_compute. reflexivity. Qed.

Example long_name_daily :
  long_name "ABCD00XXX" (Demo.files "/data/abcd0740.21d.Z")
  = "ABCD00XXX_20210740000_01D_30S_MO.rnx".
Proof. vm_compute. reflexivity. Qed.

Example long_name_hourly :
  long_name "ABCD00XXX" (Demo.files "/data/abcd074n.21d.gz")
  = "ABCD00XXX_20210741345_01H_30S_MO.rnx".
Proof. vm_compute. reflexivity. Qed.

Example nine_char_index_duplicate :
  nine_char_index ∅ Demo.nine_lines !! "abcd" = Some "abcd00REU"
  /\ nine_char_index ∅ Demo.nine_lines !! "wxyz" = Some "wxyz00DEU"
  /\ nine_char_index ∅ Demo.nine_lines !! "ABCD" = None.
Proof. vm_compute. repeat split. Qed.

Example marker_short_and_long :
  marker_filename "AB" "wxyz0740.21d" = "ab0740.21d"
  /\ marker_filename "ABCDE" "wxyz0740.21d" = "abcde0740.21d"
  /\ marker_filename "ABCD" "wxyz0740.21d" = "abcd0740.21d".
Proof. vm_compute. repeat split. Qed.

(** A run with a marker, the long name and the index: the marker is looked
    up in the index, and a file of the output folder is passed over. *)
Example run_with_long_name :
  Demo.writes
    (Demo.run (Demo.with_ninecharfile (Demo.with_name (Demo.with_marker "WXYZ"
       (Demo.keyword_run ["/data/abcd0740.21d.Z"; "/out/abcd0740.21d.Z";
                          "/data/abcd074n.21d.gz"])))))
  = [("/out", "wxyz00DEU_20210740000_01D_30S_MO.rnx", Some "Z");
     ("/out", "wxyz00DEU_20210741345_01H_30S_MO.rnx", Some "Z")].
Proof. vm_compute. reflexivity. Qed.

(** A station-log run with [ignore]: the file of 2020 has no
    instrumentation, the file of 2019 spans two periods that differ by
    their firmware, the file of 2021 lies in one period. *)
Example run_with_station_log :
  Demo.logged (Demo.run (Demo.sitelog_run false true
     ["/data/abcd0740.20d.Z"; "/data/abcd0740.19d.Z"; "/data/abcd0740.21d.Z"]))
  = [Log ERROR "35 - No instrumentation corresponding to the data period on the sitelog : /data/abcd0740.20d.Z";
     Log WARNING "36 - Instrumentation cames from merged periods of sitelog with different firmwares, processing anyway - /data/abcd0740.19d.Z"]
  /\ Demo.writes (Demo.run (Demo.sitelog_run false true
        ["/data/abcd0740.20d.Z"; "/data/abcd0740.19d.Z"; "/data/abcd0740.21d.Z"]))
     = [("/out", "abcd0740.19d", Some "Z"); ("/out", "abcd0740.21d", Some "Z")].
Proof. vm_compute. repeat split. Qed.

(** An unknown keyword: one print, no file touched. *)
Example run_with_unknown_keyword :
  Demo.run (Demo.with_kw [("station", "QQQQ"); ("antena", "x")]
                         (Demo.defaults ["/data/abcd0740.21d.Z"]))
  = Returned
      (mk_state Demo.fs0
         [OpenLog "/out/20210207093000_rinexmod.log";
          Print "# ERROR : 'antena' is not an acceptable keyword for header modification."]
         None None).
Proof. vm_compute. reflexivity. Qed.

(** ** Divergences *)

(** C1. A file of station WXYZ against the station log of ABCD. Without
    [force] the log file receives error 33 and the file is nevertheless
    modified and written; with [force] it receives warning 34, which
    announces the processing, and the file is not written. *)
Theorem station_mismatch_force_inverted :
  Demo.logged (Demo.run (Demo.sitelog_run false false ["/data/wxyz0740.21d.gz"]))
  = [Log ERROR "33 - File's station does not correspond to provided sitelog - use -f option to force /data/wxyz0740.21d.gz"]
  /\ Demo.writes (Demo.run (Demo.sitelog_run false false ["/data/wxyz0740.21d.gz"]))
     = [("/out", "wxyz0740.21d", Some "gz")]
  /\ Demo.logged (Demo.run (Demo.sitelog_run true false ["/data/wxyz0740.21d.gz"]))
     = [Log WARNING "34 - File's station does not correspond to provided sitelog, processing anyway - /data/wxyz0740.21d.gz"]
  /\ Demo.writes (Demo.run (Demo.sitelog_run true false ["/data/wxyz0740.21d.gz"]))
     = [].
Proof. vm_compute. repeat split. Qed.

(** C2. A missing file, an empty archive and a corrupt compressed file
    are each logged with their own code and the readable file after them
    is written; a file that is not an observation file (status 2) ends the
    whole run with [NameError], nothing is logged for it and the readable
    file after it is never reached. *)
Theorem wrong_format_ends_run :
  Demo.logged (Demo.run (Demo.keyword_run
     ["/data/missing.21d.Z"; "/data/empty.d.Z"; "/data/broken.d.gz";
      "/data/abcd0740.21d.Z"]))
  = [Log ERROR (Py.ljust 60 "01 - The specified file does not exists"
                +:+ " - /data/missing.21d.Z");
     Log ERROR (Py.ljust 60 "03 - Invalid or empty Zip file"
                +:+ " - /data/empty.d.Z");
     Log ERROR (Py.ljust 60 "04 - Invalid Compressed Rinex file"
                +:+ " - /data/broken.d.gz")]
  /\ Demo.writes (Demo.run (Demo.keyword_run
        ["/data/missing.21d.Z"; "/data/empty.d.Z"; "/data/broken.d.gz";
         "/data/abcd0740.21d.Z"]))
     = [("/out", "abcd0740.21d", Some "Z")]
  /\ Demo.run (Demo.keyword_run ["/data/notes.txt"; "/data/abcd0740.21d.Z"])
     = Raised (NameError "err_msg")
         (mk_state Demo.fs0
            [OpenLog "/out/20210207093000_rinexmod.log";
             Log INFO "# File : /data/notes.txt"; Load "/data/notes.txt"]
            None None).
Proof. vm_compute. repeat split. Qed.

(** C3. Two files, compressed with Z and with gz, and no compression
    asked for: both are written with Z, the compression of the first. *)
Theorem first_compression_sticks :
  RinexFile.compression (Demo.files "/data/abcd0740.21d.Z") = Some "Z"
  /\ RinexFile.compression (Demo.files "/data/wxyz0740.21d.gz") = Some "gz"
  /\ Config.compression
       (Demo.keyword_run ["/data/abcd0740.21d.Z"; "/data/wxyz0740.21d.gz"]) = None
  /\ Demo.writes (Demo.run (Demo.keyword_run
        ["/data/abcd0740.21d.Z"; "/data/wxyz0740.21d.gz"]))
     = [("/out", "abcd0740.21d", Some "Z"); ("/out", "wxyz0740.21d", Some "Z")].
Proof. vm_compute. repeat split. Qed.

(** C4. A run with a marker and neither station log nor keywords: the
    first readable file ends the run with [UnboundLocalError] on
    [modification_source], before any comment of provenance and before any
    write. *)
Theorem rename_only_run_raises :
  Demo.run (Demo.marker_run "WXYZ" ["/data/abcd0740.21d.Z"])
  = Raised (UnboundLocalError "modification_source")
      (mk_state Demo.fs0
         [OpenLog "/out/20210207093000_rinexmod.log";
          Log INFO "# File : /data/abcd0740.21d.Z";
          Load "/data/abcd0740.21d.Z"]
         None None)
  /\ Demo.writes (Demo.run (Demo.marker_run "WXYZ" ["/data/abcd0740.21d.Z"])) = [].
Proof. vm_compute. repeat split. Qed.

(** ** Instances of the general properties *)

Lemma long_name_rule_witness :
  Config.name (Demo.with_name (Demo.keyword_run [])) = true
  /\ exists site s',
      rename_long (Demo.with_name (Demo.keyword_run [])) None
                  "/data/abcd0740.21d.Z" (Demo.files "/data/abcd0740.21d.Z")
                  (Demo.loaded "/data/abcd0740.21d.Z")
      = Next (RinexFile.set_filename
                (long_name_spec site (mk_datetime 2021 3 15 13 45 0)
                                "01D" "30S" "M")
                (Demo.files "/data/abcd0740.21d.Z")) s'.
Proof.
  split; [reflexivity|].
  destruct (long_name_rule (Demo.with_name (Demo.keyword_run [])) None
              "/data/abcd0740.21d.Z" (Demo.files "/data/abcd0740.21d.Z")
              (Demo.loaded "/data/abcd0740.21d.Z") eq_refl)
    as [(site & s' & _ & Hrename & _) _].
  exists site, s'. exact Hrename.
Defined.

Lemma resolver_outcomes_witness :
  prepare (Demo.sitelog_run false true []) "/out" None "/data/abcd0740.20d.Z"
          Demo.s0
  = Next ("/out", Demo.files "/data/abcd0740.20d.Z")
         (Demo.loaded "/data/abcd0740.20d.Z")
  /\ check_station (Demo.sitelog_run false true []) Demo.station_log
       "/data/abcd0740.20d.Z" (Demo.files "/data/abcd0740.20d.Z")
       (Demo.loaded_with_source "/data/abcd0740.20d.Z")
     = Next tt (Demo.loaded_with_source "/data/abcd0740.20d.Z")
  /\ process_file (Demo.sitelog_run false true []) "/out"
       (Some Demo.station_log) None "/data/abcd0740.20d.Z" Demo.s0
     = Continue
         (record [Log ERROR ("35 - No instrumentation corresponding to the data period on the sitelog : " +:+ "/data/abcd0740.20d.Z")]
                 (Demo.loaded_with_source "/data/abcd0740.20d.Z")).
Proof.
  assert (Hprep :
            prepare (Demo.sitelog_run false true []) "/out" None
                    "/data/abcd0740.20d.Z" Demo.s0
            = Next ("/out", Demo.files "/data/abcd0740.20d.Z")
                   (Demo.loaded "/data/abcd0740.20d.Z"))
    by (vm_compute; reflexivity).
  assert (Hcheck :
            check_station (Demo.sitelog_run false true []) Demo.station_log
              "/data/abcd0740.20d.Z" (Demo.files "/data/abcd0740.20d.Z")
              (Demo.loaded_with_source "/data/abcd0740.20d.Z")
            = Next tt (Demo.loaded_with_source "/data/abcd0740.20d.Z"))
    by (vm_compute; reflexivity).
  split; [exact Hprep|]. split; [exact Hcheck|].
  exact (proj1 (resolver_outcomes (Demo.sitelog_run false true []) "/out"
                  Demo.station_log None "/data/abcd0740.20d.Z" []
                  "/out" (Demo.files "/data/abcd0740.20d.Z")
                  Demo.s0 (Demo.loaded "/data/abcd0740.20d.Z")
                  (Demo.loaded_with_source "/data/abcd0740.20d.Z")
                  Hprep Hcheck)).
Defined.

Lemma keyword_validation_witness :
  Config.modification_kw
    (Demo.with_kw [("station", "QQQQ"); ("antena", "x")]
                  (Demo.defaults ["/data/abcd0740.21d.Z"]))
  = Some [("station", "QQQQ"); ("antena", "x")]
  /\ (exists k v, (k, v) ∈ [("station", "QQQQ"); ("antena", "x")]
                 /\ k ∉ acceptable_keywords)
  /\ (exists s msg,
      rinexmod (Demo.with_kw [("station", "QQQQ"); ("antena", "x")]
                             (Demo.defaults ["/data/abcd0740.21d.Z"]))
               Demo.fs0
      = Returned s
      /\ last (trace s) = Some (Print msg)
      /\ Py.prefix_of "# ERROR" msg = true
      /\ Forall (fun e => is_file_event e = false) (trace s))
  /\ (forall k v, (k, v) ∈ [("station", "QQQQ")] -> k ∈ acceptable_keywords)
  /\ (exists s1,
      validate (Demo.keyword_run ["/data/abcd0740.21d.Z"]) Demo.s0
      = Next ("/out", None) s1
      /\ Forall (fun e => is_file_event e = false) (trace s1)).
Proof.
  assert (Hbad : exists k v, (k, v) ∈ [("station", "QQQQ"); ("antena", "x")]
                            /\ k ∉ acceptable_keywords).
  { exists "antena", "x". split.
    - apply list_elem_of_further, list_elem_of_here.
    - apply (bool_decide_unpack _). vm_compute. exact I. }
  assert (Hgood : forall k v, (k, v) ∈ [("station", "QQQQ")] ->
                              k ∈ acceptable_keywords).
  { intros k v Hin. apply list_elem_of_singleton in Hin. inversion Hin.
    apply list_elem_of_here. }
  split; [reflexivity|]. split; [exact Hbad|]. split.
  - exact (proj1 (keyword_validation
                    (Demo.with_kw [("station", "QQQQ"); ("antena", "x")]
                                  (Demo.defaults ["/data/abcd0740.21d.Z"]))
                    [("station", "QQQQ"); ("antena", "x")] Demo.fs0 eq_refl)
                 Hbad).
  - split; [exact Hgood|].
    apply (proj2 (proj2 (keyword_validation
                           (Demo.keyword_run ["/data/abcd0740.21d.Z"])
                           [("station", "QQQQ")] Demo.fs0 eq_refl)
                        Hgood)).
    + discriminate.
    + reflexivity.
    + reflexivity.
Defined.

Lemma same_folder_skipped_witness :
  abspath (dirname "/out/abcd0740.21d.Z")
  = abspath (Config.outputfolder (Demo.keyword_run []))
  /\ loop (Demo.keyword_run []) "/out" None None
          ["/out/abcd0740.21d.Z"; "/data/abcd0740.21d.Z"] Demo.s0
     = loop (Demo.keyword_run []) "/out" None None ["/data/abcd0740.21d.Z"]
         (record [Log INFO "# File : /out/abcd0740.21d.Z";
                  Log ERROR "30 - Input and output folders are the same ! - /out/abcd0740.21d.Z"]
                 Demo.s0).
Proof.
  split; [vm_compute; reflexivity|].
  apply (same_folder_skipped (Demo.keyword_run []) None None
           "/out/abcd0740.21d.Z" ["/data/abcd0740.21d.Z"] Demo.s0).
  vm_compute. reflexivity.
Defined.

Lemma nine_char_index_last_wins_witness :
  (forall l, l ∈ ["wxyz00DEU" +:+ Py.nl] ->
             Py.str_lower (Py.take 4 l)
             <> Py.str_lower (Py.take 4 ("abcd00REU" +:+ Py.nl)))
  /\ nine_char_index ∅ (["ABCD00FRA" +:+ Py.nl] ++
                        ("abcd00REU" +:+ Py.nl) :: ["wxyz00DEU" +:+ Py.nl])
       !! Py.str_lower (Py.take 4 ("abcd00REU" +:+ Py.nl))
     = Some (Py.strip ("abcd00REU" +:+ Py.nl)).
Proof.
  assert (Hpost : forall l, l ∈ ["wxyz00DEU" +:+ Py.nl] ->
                            Py.str_lower (Py.take 4 l)
                            <> Py.str_lower (Py.take 4 ("abcd00REU" +:+ Py.nl))).
  { intros l Hl. apply list_elem_of_singleton in Hl. subst l.
    vm_compute. discriminate. }
  split; [exact Hpost|].
  exact (proj1 (nine_char_index_last_wins ["ABCD00FRA" +:+ Py.nl]
                  ["wxyz00DEU" +:+ Py.nl] ("abcd00REU" +:+ Py.nl) Hpost)).
Defined.

Lemma marker_step_length_witness :
  Config.marker (Demo.marker_run "ABCDE" []) = Some "ABCDE"
  /\ "ABCDE" <> ""
  /\ 4 <= String.length (RinexFile.filename (Demo.files "/data/wxyz0740.21d.gz"))
  /\ is_ascii "ABCDE" = true
  /\ RinexFile.filename
       (rename_marker (Demo.marker_run "ABCDE" [])
                      (Demo.files "/data/wxyz0740.21d.gz"))
     = Py.str_lower "ABCDE" +:+ Py.drop 4 "wxyz0740.21d"
  /\ String.length
       (RinexFile.filename
          (rename_marker (Demo.marker_run "ABCDE" [])
                         (Demo.files "/data/wxyz0740.21d.gz")))
     <> String.length (RinexFile.filename (Demo.files "/data/wxyz0740.21d.gz")).
Proof.
  assert (Hne : "ABCDE" <> "") by discriminate.
  assert (Hlen : 4 <= String.length
                        (RinexFile.filename (Demo.files "/data/wxyz0740.21d.gz")))
    by (vm_compute; lia).
  split; [reflexivity|]. split; [exact Hne|]. split; [exact Hlen|].
  split; [reflexivity|].
  destruct (marker_step_length (Demo.marker_run "ABCDE" []) "ABCDE"
              (Demo.files "/data/wxyz0740.21d.gz") eq_refl Hne)
    as (Hname & _ & Hiff & Hascii).
  split; [exact Hname|].
  intros Hsame. apply (Hiff Hlen) in Hsame.
  rewrite (Hascii eq_refl) in Hsame. discriminate Hsame.
Defined.

(** The marker [xy] on a file named [ab]: the marker does not have four
    characters and the name keeps its length, [xy] for [ab]. *)
Lemma marker_length_counterexample :
  Config.marker (Demo.marker_run "xy" []) = Some "xy"
  /\ "xy" <> ""
  /\ String.length "xy" <> 4
  /\ RinexFile.filename (rename_marker (Demo.marker_run "xy" []) DemoMore.short_name)
     = "xy"
  /\ String.length
       (RinexFile.filename (rename_marker (Demo.marker_run "xy" []) DemoMore.short_name))
     = String.length (RinexFile.filename DemoMore.short_name).
Proof.
  split; [reflexivity|]. split; [discriminate|]. split; [discriminate|].
  split; reflexivity.
Defined.

(** ** Instances of the further properties *)

Example split_values :
  split "=" "antenna_type=TRM57971.00" = ["antenna_type"; "TRM57971.00"]
  /\ split "=" "a=b=c" = ["a"; "b"; "c"]
  /\ split "=" "station" = ["station"]
  /\ split "=" "" = [""].
Proof. vm_compute. repeat split. Qed.

Example ParseKwargs_values :
  ParseKwargs ["station=ABCD"; "agency=IPGP"; "station=WXYZ"]
  = Parsed [("station", "WXYZ"); ("agency", "IPGP")]
  /\ ParseKwargs ["station=ABCD"; "agency"] = ValueError
  /\ ParseKwargs [] = Parsed [].
Proof. vm_compute. repeat split. Qed.

Example run_with_compression_and_reconstruct :
  Demo.writes (Demo.run (DemoMore.with_reconstruct "/data"
                           (DemoMore.with_compression "gz" DemoMore.two_files)))
  = [("/out/.", "abcd0740.21d", Some "gz"); ("/out/.", "wxyz0740.21d", Some "gz")].
Proof. vm_compute. reflexivity. Qed.

Lemma skip_is_logged_witness :
  process_file (Demo.keyword_run []) "/out" None None "/data/empty.d.Z" Demo.s0
  = Continue
      (record [Log INFO "# File : /data/empty.d.Z"; Load "/data/empty.d.Z";
               Log ERROR (Py.ljust 60 "03 - Invalid or empty Zip file"
                          +:+ " - /data/empty.d.Z")] Demo.s0)
  /\ exists lvl msg,
      last (trace (record [Log INFO "# File : /data/empty.d.Z";
                           Load "/data/empty.d.Z";
                           Log ERROR (Py.ljust 60 "03 - Invalid or empty Zip file"
                                      +:+ " - /data/empty.d.Z")] Demo.s0))
      = Some (Log lvl msg)
      /\ lvl <> INFO /\ mentions "/data/empty.d.Z" msg.
Proof.
  assert (Hrun :
            process_file (Demo.keyword_run []) "/out" None None
                         "/data/empty.d.Z" Demo.s0
            = Continue
                (record [Log INFO "# File : /data/empty.d.Z";
                         Load "/data/empty.d.Z";
                         Log ERROR (Py.ljust 60 "03 - Invalid or empty Zip file"
                                    +:+ " - /data/empty.d.Z")] Demo.s0))
    by (vm_compute; reflexivity).
  split; [exact Hrun|].
  exact (proj1 (skip_is_logged (Demo.keyword_run []) "/out" None None
                  "/data/empty.d.Z" Demo.s0 _ Hrun)).
Defined.

Lemma processed_file_written_once_witness :
  (exists s',
      process_file (Demo.keyword_run []) "/out" None None
                   "/data/abcd0740.21d.Z" Demo.s0 = Next tt s')
  /\ exists s' pre o c post,
      trace s' = trace Demo.s0 ++ pre
                 ++ Write o (destination (Demo.keyword_run []) "/out"
                                         "/data/abcd0740.21d.Z") c :: post
      /\ Forall (fun e => is_write e = false) pre
      /\ Forall (fun e => is_write e = false) post.
Proof.
  assert (Hrun : exists s',
             process_file (Demo.keyword_run []) "/out" None None
                          "/data/abcd0740.21d.Z" Demo.s0 = Next tt s')
    by (eexists; vm_compute; reflexivity).
  split; [exact Hrun|]. destruct Hrun as [s' Hrun]. exists s'.
  exact (processed_file_written_once (Demo.keyword_run []) "/out" None None
           "/data/abcd0740.21d.Z" Demo.s0 s' Hrun).
Defined.

Lemma explicit_compression_wins_witness :
  Py.truthy (Config.compression (DemoMore.with_compression "gz" DemoMore.two_files))
  = true
  /\ Forall (written_with (Some "gz"))
            (trace (final (rinexmod (DemoMore.with_compression "gz" DemoMore.two_files)
                                    Demo.fs0))).
Proof.
  split; [reflexivity|].
  apply (explicit_compression_wins
           (DemoMore.with_compression "gz" DemoMore.two_files) Demo.fs0).
  reflexivity.
Defined.

Lemma writes_go_to_output_folder_witness :
  Py.truthy (Config.reconstruct DemoMore.two_files) = false
  /\ Forall (written_to "/out")
            (trace (final (rinexmod DemoMore.two_files Demo.fs0))).
Proof.
  split; [reflexivity|].
  apply (writes_go_to_output_folder DemoMore.two_files Demo.fs0). reflexivity.
Defined.

Lemma run_returns_cleared_or_error_witness :
  (exists s, rinexmod DemoMore.two_files Demo.fs0 = Returned s)
  /\ exists s,
      rinexmod DemoMore.two_files Demo.fs0 = Returned s
      /\ (last (trace s) = Some ClearHandlers
          \/ exists msg, last (trace s) = Some (Print msg)
                         /\ Py.prefix_of "# ERROR" msg = true).
Proof.
  assert (Hrun : exists s, rinexmod DemoMore.two_files Demo.fs0 = Returned s)
    by (eexists; vm_compute; reflexivity).
  split; [exact Hrun|]. destruct Hrun as [s Hrun]. exists s.
  split; [exact Hrun|].
  exact (run_returns_cleared_or_error DemoMore.two_files Demo.fs0 s Hrun).
Defined.

Lemma refused_configurations_witness :
  Py.truthy (Config.sitelog (Demo.with_sitelog false false DemoMore.two_files)) = true
  /\ kw_truthy (Config.modification_kw
                  (Demo.with_sitelog false false DemoMore.two_files)) = true
  /\ rinexmod (Demo.with_sitelog false false DemoMore.two_files) Demo.fs0
     = Returned (mk_state Demo.fs0
         [Print "# ERROR : If you get metadata from sitelog, don't provide arguments for modification (-k, --modification_kw option) !"]
         None None)
  /\ rinexmod (Demo.defaults ["/data/abcd0740.21d.Z"]) Demo.fs0
     = Returned (mk_state Demo.fs0
         [Print "# ERROR : No action asked, provide at least one of the following args : --sitelog, --modification_kw, --marker, --name."]
         None None).
Proof.
  split; [reflexivity|]. split; [reflexivity|]. split.
  - exact (proj1 (refused_configurations
                    (Demo.with_sitelog false false DemoMore.two_files) Demo.fs0)
                 eq_refl eq_refl).
  - exact (proj2 (refused_configurations
                    (Demo.defaults ["/data/abcd0740.21d.Z"]) Demo.fs0)
                 eq_refl eq_refl eq_refl eq_refl).
Defined.

Lemma missing_input_returns_early_witness :
  Config.rinexlist (DemoMore.with_list_file "/lists/none.txt" DemoMore.two_files)
  = ListFile "/lists/none.txt"
  /\ isfile Demo.fs0 "/lists/none.txt" = false
  /\ exists s,
      rinexmod (DemoMore.with_list_file "/lists/none.txt" DemoMore.two_files)
               Demo.fs0 = Returned s
      /\ fs s = Demo.fs0
      /\ Forall (fun e => exists msg, e = Print msg) (trace s)
      /\ error_last s.
Proof.
  split; [reflexivity|]. split; [reflexivity|].
  exact (missing_input_returns_early
           (DemoMore.with_list_file "/lists/none.txt" DemoMore.two_files)
           "/lists/none.txt" Demo.fs0 eq_refl eq_refl).
Defined.

Lemma unparsable_sitelog_returns_witness :
  Config.sitelog (DemoMore.with_sitelog_path "/logs/unreadable.log"
                    (Demo.defaults ["/data/abcd0740.21d.Z"]))
  = Some "/logs/unreadable.log"
  /\ exists s,
      rinexmod (DemoMore.with_sitelog_path "/logs/unreadable.log"
                  (Demo.defaults ["/data/abcd0740.21d.Z"])) Demo.fs0
      = Returned s
      /\ last (trace s)
         = Some (Print ("# ERROR : The sitelog is not parsable : "
                        +:+ "/logs/unreadable.log"))
      /\ Forall (fun e => is_file_event e = false) (trace s).
Proof.
  split; [reflexivity|].
  destruct (unparsable_sitelog_returns
              (DemoMore.with_sitelog_path "/logs/unreadable.log"
                 (Demo.defaults ["/data/abcd0740.21d.Z"]))
              "/logs/unreadable.log" Demo.fs0 eq_refl)
    as (s & Hrun & _ & Hlast & Hnone & _).
  - discriminate.
  - reflexivity.
  - reflexivity.
  - vm_compute. discriminate.
  - exists s. split; [exact Hrun|]. split; [exact Hlast|exact Hnone].
Defined.

Lemma unreconstructable_skipped_witness :
  abspath (dirname "/data/abcd0740.21d.Z") <> "/out"
  /\ Py.contains "/archive" "/data/abcd0740.21d.Z" = false
  /\ process_file (DemoMore.with_reconstruct "/archive" DemoMore.two_files) "/out"
                  None None "/data/abcd0740.21d.Z" Demo.s0
     = Continue
         (record [Log INFO ("# File : " +:+ "/data/abcd0740.21d.Z");
                  Log ERROR ("31 - The subfolder can not be reconstructed for file - "
                             +:+ "/data/abcd0740.21d.Z")] Demo.s0).
Proof.
  assert (Hdir : abspath (dirname "/data/abcd0740.21d.Z") <> "/out")
    by (vm_compute; discriminate).
  split; [exact Hdir|]. split; [reflexivity|].
  exact (proj1 (unreconstructable_skipped
                  (DemoMore.with_reconstruct "/archive" DemoMore.two_files) "/out"
                  None None "/archive" "/data/abcd0740.21d.Z" [] Demo.s0
                  Hdir eq_refl ltac:(discriminate) eq_refl)).
Defined.

Lemma marker_decides_site_witness :
  Config.marker (Demo.marker_run "WxYz9" []) = Some "WxYz9"
  /\ is_ascii "WxYz9" = true
  /\ 4 <= String.length "WxYz9"
  /\ resolve_site (Some (nine_char_index ∅ Demo.nine_lines))
                  "/data/abcd0740.21d.Z"
                  (rename_marker (Demo.marker_run "WxYz9" [])
                                 (Demo.files "/data/abcd0740.21d.Z"))
                  Demo.s0
     = match nine_char_index ∅ Demo.nine_lines !! Py.str_lower (Py.take 4 "WxYz9") with
       | Some site => Next site Demo.s0
       | None =>
           Next (Py.str_upper (Py.take 4 "WxYz9") +:+ "00XXX")
                (record [Log WARNING ("32 - Station's country not retrevied, will not be properly renamed - " +:+ "/data/abcd0740.21d.Z")] Demo.s0)
       end.
Proof.
  assert (Hlen : 4 <= String.length "WxYz9") by (cbn; lia).
  split; [reflexivity|]. split; [reflexivity|]. split; [exact Hlen|].
  exact (marker_decides_site (Demo.marker_run "WxYz9" []) "WxYz9"
           (Some (nine_char_index ∅ Demo.nine_lines)) "/data/abcd0740.21d.Z"
           (Demo.files "/data/abcd0740.21d.Z") Demo.s0 eq_refl eq_refl Hlen).
Defined.

(** The root logger after a call that returned without clearing its
    handlers, and a second call: a warning is emitted by the two handlers
    left behind and by the two new ones. *)
Example loggersVerbose_twice :
  Logging.handle
    (Logging.loggersVerbose "/out/b.log"
       (Logging.loggersVerbose "/out/a.log" (Logging.mk_logger 30 [])))
    "t" Logging.WARNING "m"
  = [(Prompt, "t - WARNING - m"); (LogFile "/out/a.log", "t - WARNING - m");
     (Prompt, "t - WARNING - m"); (LogFile "/out/b.log", "t - WARNING - m")]
  /\ Logging.handle (Logging.loggersVerbose "/out/a.log" (Logging.mk_logger 30 []))
                    "t" Logging.ERROR "m"
     = [(Prompt, "t - ERROR   - m"); (LogFile "/out/a.log", "t - ERROR - m")]
  /\ Logging.handle (Logging.loggersVerbose "/out/a.log" (Logging.mk_logger 30 []))
                    "t" Logging.DEBUG "m"
     = [].
Proof. vm_compute. repeat split. Qed.

Lemma ParseKwargs_round_trip_witness :
  NoDup [("station", "ABCD"); ("antenna_type", "TRM57971.00     NONE")].*1
  /\ ParseKwargs (map keyword_token
                      [("station", "ABCD"); ("antenna_type", "TRM57971.00     NONE")])
     = Parsed [("station", "ABCD"); ("antenna_type", "TRM57971.00     NONE")].
Proof.
  assert (Hnd : NoDup [("station", "ABCD");
                       ("antenna_type", "TRM57971.00     NONE")].*1).
  { cbn. apply NoDup_cons. split.
    - intros Hin. apply list_elem_of_singleton in Hin. discriminate.
    - apply NoDup_singleton. }
  split; [exact Hnd|].
  apply (ParseKwargs_round_trip _ Hnd).
  intros k v Hin.
  apply elem_of_cons in Hin as [Heq|Hin];
    [|apply list_elem_of_singleton in Hin as Heq];
    inversion Heq; subst; split; reflexivity.
Defined.

Lemma ParseKwargs_value_error_witness :
  "antenna_type=TRM=1" ∈ ["station=ABCD"; "antenna_type=TRM=1"]
  /\ count_char "=" "antenna_type=TRM=1" <> 1
  /\ ParseKwargs ["station=ABCD"; "antenna_type=TRM=1"] = ValueError.
Proof.
  assert (Hin : "antenna_type=TRM=1" ∈ ["station=ABCD"; "antenna_type=TRM=1"])
    by (apply list_elem_of_further, list_elem_of_here).
  assert (Hbad : count_char "=" "antenna_type=TRM=1" <> 1)
    by (vm_compute; discriminate).
  split; [exact Hin|]. split; [exact Hbad|].
  exact (ParseKwargs_value_error _ _ Hin Hbad).
Defined.

Lemma ParseKwargs_last_wins_witness :
  ParseKwargs (["station=ABCD"] ++ keyword_token ("station", "WXYZ") :: ["agency=IPGP"])
  = Parsed [("station", "WXYZ"); ("agency", "IPGP")]
  /\ kw_get "station" [("station", "WXYZ"); ("agency", "IPGP")] = Some "WXYZ".
Proof.
  assert (Hrun :
            ParseKwargs (["station=ABCD"] ++ keyword_token ("station", "WXYZ")
                         :: ["agency=IPGP"])
            = Parsed [("station", "WXYZ"); ("agency", "IPGP")])
    by (vm_compute; reflexivity).
  split; [exact Hrun|].
  apply (ParseKwargs_last_wins ["station=ABCD"] ["agency=IPGP"] "station" "WXYZ"
           _ eq_refl eq_refl); [|exact Hrun].
  intros t Ht. apply list_elem_of_singleton in Ht. subst t.
  vm_compute. discriminate.
Defined.
